(** * ExcelAnalyzer: column discovery, row classification and aggregation

    A shallow embedding of the analysis core of
    [src/components/ExcelAnalyzer.tsx] ([isAssigned], [parseDate],
    [getTodayInKolkata], [findColumns] and the body of [analyzeExcel]),
    of the state of the component and its handlers ([handleDrag],
    [handleDrop], [handleFileInput] and the [analyzeExcel] callback),
    together with the small part of the JavaScript runtime and of the
    SheetJS ([xlsx]) utilities those functions call.

    Conventions of the embedding:
    - a JavaScript string is a [string]; [toLowerCase] and [trim] are the
      ASCII fragments of the runtime functions (other bytes pass through);
    - a JavaScript number held by a cell is a finite double and is modelled
      by the rational it denotes ([Q]); arithmetic is exact, so the rounding
      of IEEE-754 operations is outside the model. The model and the
      program agree wherever the double operations are exact (whole
      numbers, halves); where they round, the program can differ in the
      last unit: a percentage at a tie may land on the other neighbouring
      tenth, a fractional serial on the neighbouring millisecond. The
      statements about percentages and serials are worded to hold either
      way. A rounded percentage [Math.round(x * 10) / 10] is read as the
      tenth it prints as, [k / 10] for the whole number [k] that
      [Math.round] returns;
    - a [Date] object is its time value: an integer number of milliseconds
      since 1970-01-01T00:00:00Z, or NaN ([InvalidDate]);
    - the worksheet is the SheetJS object: a finite map from A1-style
      addresses to cell objects, plus the decoded ['!ref'] range;
    - what the host decides (the local time zone, how [Date.parse] reads a
      string that is not in the ISO date format, how a number prints) is a
      [Variable] of the section [Analyzer]. *)

From Stdlib Require Import ZArith QArith Qround Qabs Bool List Lia Lqa.
From Stdlib Require Import Ascii String DecimalString.
From stdpp Require Import gmap strings.

Import ListNotations.
Local Open Scope string_scope.
Local Open Scope bool_scope.
Local Open Scope Z_scope.

(** ** JavaScript values and strings *)

Module JS.

(** The values a SheetJS cell property can hold, plus [null] and
    [undefined] (an absent property reads as [undefined]). *)
Inductive value : Type :=
  | VUndefined
  | VNull
  | VBool (b : bool)
  | VNumber (n : Q)
  | VString (s : string).

(** ToBoolean. *)
Definition truthy (v : value) : bool :=
  match v with
  | VUndefined | VNull => false
  | VBool b => b
  | VNumber n => negb (Qnum n =? 0)
  | VString s => negb (s =? "")%string
  end.

(** [a || b]: the first operand when it is truthy, the second otherwise. *)
Definition or (a b : value) : value := if truthy a then a else b.

(** [typeof v === 'number'] *)
Definition is_number (v : value) : bool :=
  match v with VNumber _ => true | _ => false end.

(** Decimal text of an integer, as a template literal prints it. *)
Definition string_of_Z (z : Z) : string := NilZero.string_of_int (Z.to_int z).
Definition string_of_nat (n : nat) : string := NilZero.string_of_uint (Nat.to_uint n).

Definition is_upper (c : ascii) : bool :=
  let n := nat_of_ascii c in (65 <=? n)%nat && (n <=? 90)%nat.

Definition lower_char (c : ascii) : ascii :=
  if is_upper c then ascii_of_nat (nat_of_ascii c + 32) else c.

(** [String.prototype.toLowerCase] on ASCII text. *)
Fixpoint toLowerCase (s : string) : string :=
  match s with
  | EmptyString => EmptyString
  | String c s' => String (lower_char c) (toLowerCase s')
  end.

(** The ASCII white space and line terminators [trim] removes:
    TAB, LF, VT, FF, CR and SPACE. *)
Definition is_white (c : ascii) : bool :=
  let n := nat_of_ascii c in
  ((9 <=? n)%nat && (n <=? 13)%nat) || (n =? 32)%nat.

Fixpoint trimStart (s : string) : string :=
  match s with
  | EmptyString => EmptyString
  | String c s' => if is_white c then trimStart s' else s
  end.

Fixpoint trimEnd (s : string) : string :=
  match s with
  | EmptyString => EmptyString
  | String c s' =>
      let r := trimEnd s' in
      if is_white c && (r =? "")%string then EmptyString else String c r
  end.

(** [String.prototype.trim] *)
Definition trim (s : string) : string := trimEnd (trimStart s).

(** [hay.includes(needle)] *)
Fixpoint includes (needle hay : string) : bool :=
  String.prefix needle hay ||
  match hay with
  | EmptyString => false
  | String _ hay' => includes needle hay'
  end.

(** [list.includes(str)] on an array of strings. *)
Definition array_includes (l : list string) (str : string) : bool :=
  existsb (String.eqb str) l.

(** [s.endsWith(suffix)] *)
Definition endsWith (s suffix : string) : bool :=
  let n := String.length s in
  let m := String.length suffix in
  (m <=? n)%nat && (substring (n - m) m s =? suffix)%string.

(** *** Dates *)

(** A [Date] object, identified with its time value. *)
Inductive Date : Type :=
  | ValidDate (t : Z)
  | InvalidDate.

(** [d.getTime()]; [None] stands for NaN. *)
Definition getTime (d : Date) : option Z :=
  match d with ValidDate t => Some t | InvalidDate => None end.

Definition msPerDay : Z := 86400000.
Definition maxTime : Z := 8640000000000000.

(** Truncation toward zero (ToIntegerOrInfinity on a finite number). *)
Definition truncate (q : Q) : Z :=
  if Qle_bool 0 q then Qfloor q else Qceiling q.

(** TimeClip: a time value beyond 8.64e15 ms in magnitude is NaN. *)
Definition TimeClip (q : Q) : Date :=
  if Qle_bool (Qabs q) (inject_Z maxTime) then ValidDate (truncate q)
  else InvalidDate.

(** [a < b] on two Date objects: both are converted to their time value
    and any comparison with NaN is false. *)
Definition date_lt (a b : Date) : bool :=
  match a, b with
  | ValidDate x, ValidDate y => x <? y
  | _, _ => false
  end.

(** Day number (days since 1970-01-01) of a civil date of the proleptic
    Gregorian calendar, month in 1..12. *)
Definition days_from_civil (y m d : Z) : Z :=
  let y' := if m <=? 2 then y - 1 else y in
  let era := y' / 400 in
  let yoe := y' - era * 400 in
  let doy := (153 * (if 2 <? m then m - 3 else m + 9) + 2) / 5 + d - 1 in
  let doe := yoe * 365 + yoe / 4 - yoe / 100 + doy in
  era * 146097 + doe - 719468.

(** The civil date (year, month 1..12, day) of a day number. *)
Definition civil_from_days (z0 : Z) : Z * Z * Z :=
  let z := z0 + 719468 in
  let era := z / 146097 in
  let doe := z - era * 146097 in
  let yoe := (doe - doe / 1460 + doe / 36524 - doe / 146096) / 365 in
  let doy := doe - (365 * yoe + yoe / 4 - yoe / 100) in
  let mp := (5 * doy + 2) / 153 in
  let d := doy - (153 * mp + 2) / 5 + 1 in
  let m := if mp <? 10 then mp + 3 else mp - 9 in
  (if m <=? 2 then yoe + era * 400 + 1 else yoe + era * 400, m, d).

Definition is_leap (y : Z) : bool :=
  ((y mod 4 =? 0) && negb (y mod 100 =? 0)) || (y mod 400 =? 0).

Definition days_in_month (y m : Z) : Z :=
  if m =? 2 then (if is_leap y then 29 else 28)
  else if (m =? 4) || (m =? 6) || (m =? 9) || (m =? 11) then 30
  else 31.

(** MakeDay(year, month, date) with a zero-based month that may overflow. *)
Definition MakeDay (year month date : Z) : Z :=
  days_from_civil (year + month / 12) (month mod 12 + 1) 1 + date - 1.

Definition digit (c : ascii) : option Z :=
  let n := nat_of_ascii c in
  if (48 <=? n)%nat && (n <=? 57)%nat then Some (Z.of_nat (n - 48)) else None.

Definition digits2 (a b : ascii) : option Z :=
  match digit a, digit b with
  | Some x, Some y => Some (10 * x + y)
  | _, _ => None
  end.

Definition digits4 (a b c d : ascii) : option Z :=
  match digits2 a b, digits2 c d with
  | Some x, Some y => Some (100 * x + y)
  | _, _ => None
  end.

Definition utc_midnight (y m d : Z) : option Z :=
  if (1 <=? m) && (m <=? 12) && (1 <=? d) && (d <=? days_in_month y m)
  then Some (days_from_civil y m d * msPerDay)
  else None.

(** The date-only forms of the ECMAScript date-time string format:
    [YYYY], [YYYY-MM] and [YYYY-MM-DD], read as UTC midnight. *)
Definition parse_iso_date (s : string) : option Z :=
  match s with
  | String y1 (String y2 (String y3 (String y4 rest))) =>
      match digits4 y1 y2 y3 y4 with
      | None => None
      | Some y =>
          match rest with
          | EmptyString => utc_midnight y 1 1
          | String "-" (String m1 (String m2 rest')) =>
              match digits2 m1 m2 with
              | None => None
              | Some m =>
                  match rest' with
                  | EmptyString => utc_midnight y m 1
                  | String "-" (String d1 (String d2 EmptyString)) =>
                      match digits2 d1 d2 with
                      | None => None
                      | Some d => utc_midnight y m d
                      end
                  | _ => None
                  end
              end
          | _ => None
          end
      end
  | _ => None
  end.

Definition pad2 (z : Z) : string :=
  if z <? 10 then "0" +:+ string_of_Z z else string_of_Z z.

Definition pad4 (z : Z) : string :=
  if z <? 10 then "000" +:+ string_of_Z z
  else if z <? 100 then "00" +:+ string_of_Z z
  else if z <? 1000 then "0" +:+ string_of_Z z
  else string_of_Z z.

Definition pad6 (z : Z) : string :=
  if z <? 100000 then (if z <? 10000 then "00" else "0") +:+ pad4 z
  else string_of_Z z.

(** The year of [toISOString]: four digits from 0 to 9999, otherwise a
    sign and six digits. *)
Definition iso_year (y : Z) : string :=
  if (0 <=? y) && (y <=? 9999) then pad4 y
  else if y <? 0 then "-" +:+ pad6 (- y)
  else "+" +:+ pad6 y.

(** [new Date(t).toISOString().split('T')[0]] for a valid time value. *)
Definition iso_date_of_time (t : Z) : string :=
  let '(y, m, d) := civil_from_days (t / msPerDay) in
  iso_year y +:+ "-" +:+ pad2 m +:+ "-" +:+ pad2 d.

End JS.

(** ** SheetJS worksheets *)

Module XLSX.

(** A cell object: [v] is the raw value, [w] the formatted text (both
    optional; an absent [v] is [VUndefined]). *)
Record cell : Type := mkCell {
  cell_v : JS.value;
  cell_w : option string
}.

(** [cell.w] as a JavaScript value. *)
Definition prop_w (c : cell) : JS.value :=
  match cell_w c with Some s => JS.VString s | None => JS.VUndefined end.

(** A decoded range [{ s: { r, c }, e: { r, c } }]. *)
Record range : Type := mkRange {
  s_r : nat; s_c : nat;
  e_r : nat; e_c : nat
}.

(** The worksheet object: its ['!ref'] (absent or empty: [None]) and its
    cells, keyed by A1-style address. *)
Record worksheet : Type := mkSheet {
  ws_ref : option range;
  ws_cells : gmap string cell
}.

(** [XLSX.utils.decode_range(worksheet['!ref'] || 'A1')] *)
Definition decode_ref (ws : worksheet) : range :=
  match ws_ref ws with
  | Some r => r
  | None => mkRange 0 0 0 0
  end.

(** The loop of [XLSX.utils.encode_col]:
    [for(++col; col; col = Math.floor((col-1)/26))
       s = String.fromCharCode(((col-1)%26) + 65) + s]. *)
Fixpoint encode_col_loop (fuel col : nat) (s : string) : string :=
  match fuel with
  | O => s
  | S fuel' =>
      if (col =? 0)%nat then s
      else encode_col_loop fuel' ((col - 1) / 26)
             (String (ascii_of_nat ((col - 1) mod 26 + 65)) s)
  end.

Definition encode_col (col : nat) : string :=
  encode_col_loop (S col) (S col) "".

(** The loop of [XLSX.utils.decode_col]:
    [for(; i !== c.length; ++i) d = 26*d + c.charCodeAt(i) - 64]. *)
Fixpoint decode_col_loop (d : nat) (c : string) : nat :=
  match c with
  | EmptyString => d
  | String ch c' => decode_col_loop (26 * d + (nat_of_ascii ch - 64)) c'
  end.

Definition decode_col (colstr : string) : nat := decode_col_loop 0 colstr - 1.

(** [XLSX.utils.encode_cell({ r, c })] *)
Definition encode_cell (r c : nat) : string :=
  encode_col c +:+ JS.string_of_nat (r + 1).

End XLSX.

(** ** The analyzer *)

(** Outcome of the [try] block of [analyzeExcel]: what the [catch] clause
    receives. *)
Inductive exception : Type :=
  | Error (message : string)
  | RangeError_invalid_time.

Record ColumnsUsed : Type := mkColumnsUsed {
  action : string;
  due_date : string
}.

Record AnalysisResult : Type := mkResult {
  total_rows : Z;
  assigned_count : Z;
  assigned_pct : Q;
  overdue_count : Z;
  overdue_pct_of_assigned : Q;
  today_iso : string;
  timezone : string;
  columns_used : ColumnsUsed;
  notes : list string;
  summary : string
}.

(** The three counters of the row loop. *)
Record counters : Type := mkCounters {
  totalRows : Z;
  assignedCount : Z;
  overdueCount : Z
}.

(** What [kolkataTime.getFullYear()], [getMonth()] and [getDate()] read. *)
Record wallclock : Type := mkClock {
  fullYear : Z;
  month : Z;
  date : Z
}.

Definition dquote : ascii := ascii_of_nat 34.

Definition msg_no_action : string :=
  "Action column not found. Please ensure your Excel file has an "
  +:+ String dquote "Action" +:+ String dquote " column.".

Definition msg_no_due_date : string :=
  "Due Date column not found. Overdue analysis skipped.".

Definition not_found : string := "Not found".

(** [!col] on a [string | null]: true for [null] and for the empty string. *)
Definition falsy_col (c : option string) : bool :=
  match c with
  | None => true
  | Some s => (s =? "")%string
  end.

(** [Math.round] *)
Definition Math_round (q : Q) : Z := Qfloor (q + (1 # 2)).

(** [x.toFixed(0)] for the percentages, which are never negative. *)
Definition toFixed0 (q : Q) : string := JS.string_of_Z (Qfloor (q + (1 # 2))).

(** [Math.round(pct * 10) / 10] *)
Definition round1 (pct : Q) : Q := (inject_Z (Math_round (pct * 10)) / 10)%Q.

(** [den > 0 ? (num / den) * 100 : 0] *)
Definition percent (num den : Z) : Q :=
  if 0 <? den then ((inject_Z num / inject_Z den) * 100)%Q else 0%Q.

Definition positive_tokens : list string :=
  ["yes"; "true"; "assigned"; "done"; "1"].

(** ** Sample worksheets and a sample host *)

Module Samples.

Import JS XLSX.

(** A text cell as the reader stores it: the string and the same
    formatted text. *)
Definition text (s : string) : cell := mkCell (VString s) (Some s).

(** A cell that carries a raw value and no formatted text. *)
Definition raw (v : value) : cell := mkCell v None.

(** A date cell: the serial number and its formatted text. *)
Definition serial (n : Q) (w : string) : cell := mkCell (VNumber n) (Some w).

Fixpoint put_row (r c : nat) (cells : list cell) (m : gmap string cell)
  : gmap string cell :=
  match cells with
  | [] => m
  | x :: cells' => put_row r (S c) cells' (<[encode_cell r c := x]> m)
  end.

Fixpoint put_rows (r : nat) (rows : list (list cell)) (m : gmap string cell)
  : gmap string cell :=
  match rows with
  | [] => m
  | row :: rows' => put_rows (S r) rows' (put_row r 0 row m)
  end.

(** The worksheet of a grid given row by row, row 0 first. *)
Definition sheet (rows : list (list cell)) : worksheet :=
  let width := fold_right (fun row w => Nat.max (length row) w) 0%nat rows in
  mkSheet (Some (mkRange 0 0 (length rows - 1) (width - 1)))
          (put_rows 0 rows ∅).

(** Scenario A of the specification. *)
Definition scenario_A : worksheet :=
  sheet [ [text "Action"; text "Due Date"];
          [text "Yes"; text "2020-01-01"];
          [text "No"; text "2099-01-01"];
          [text "true"; text "2020-01-01"] ].

(** The same grid with raw strings only (no formatted text). *)
Definition scenario_A_raw : worksheet :=
  sheet [ [raw (VString "Action"); raw (VString "Due Date")];
          [raw (VString "Yes"); raw (VString "2020-01-01")];
          [raw (VString "No"); raw (VString "2099-01-01")];
          [raw (VString "true"); raw (VString "2020-01-01")] ].

Definition new_year_2024 : wallclock := mkClock 2024 0 1.

(** Two headers that both read as a due date. *)
Definition two_due_dates : worksheet :=
  sheet [ [text "Action"; text "Due Date"; text "Date Due"];
          [text "Yes"; text "2020-01-01"; text "2099-01-01"] ].

(** One header that reads both as the action and as a due date. *)
Definition action_due_date : worksheet :=
  sheet [ [text "Action Due Date"]; [text "Yes"] ].

(** A second action-like header that also reads as a due date. *)
Definition action_then_both : worksheet :=
  sheet [ [text "Action"; text "Action due date"];
          [text "Yes"; text "2020-01-01"] ].

(** No header mentions an action. *)
Definition no_action : worksheet :=
  sheet [ [text "Name"; text "Due Date"]; [text "Ann"; text "2020-01-01"] ].

(** An action column only. *)
Definition action_only : worksheet :=
  sheet [ [text "Action"]; [text "Yes"]; [text "No"] ].

(** One data row, not assigned. *)
Definition one_unassigned : worksheet :=
  sheet [ [text "Action"]; [text "No"] ].

(** An assigned row whose due date does not parse. *)
Definition scenario_D : worksheet :=
  sheet [ [text "Action"; text "Due Date"]; [text "Yes"; text "N/A"] ].

(** The serial 45000 (2023-03-15) shown in two number formats. *)
Definition due_shown_as (w : string) : worksheet :=
  sheet [ [text "Action"; text "Due Date"]; [text "Yes"; serial 45000 w] ].

(** Scenario A with a third column the analysis has no use for. *)
Definition scenario_A_with_owner : worksheet :=
  sheet [ [text "Action"; text "Due Date"; text "Owner"];
          [text "Yes"; text "2020-01-01"; text "Ann"];
          [text "No"; text "2099-01-01"; text "Bob"];
          [text "true"; text "2020-01-01"; text "Cy"] ].

(** The same sheet with other entries, or none, in the third column. *)
Definition scenario_A_other_owner : worksheet :=
  sheet [ [text "Action"; text "Due Date"; text "Owner"];
          [text "Yes"; text "2020-01-01"; text "No"];
          [text "No"; text "2099-01-01"; serial 0 "1900-01-01"];
          [text "true"; text "2020-01-01"] ].

(** A sheet whose second data row has no cell at all. *)
Definition with_blank_row : worksheet :=
  sheet [ [text "Action"; text "Due Date"];
          [text "Yes"; text "2020-01-01"];
          [];
          [text "No"; text "2099-01-01"] ].

(** Two columns whose headers both mention an action. *)
Definition two_actions : worksheet :=
  sheet [ [text "Name"; text "Action"; text "Next action"];
          [text "Ann"; text "Yes"; text "No"] ].

(** A header row and nothing below it. *)
Definition header_only : worksheet :=
  sheet [ [text "Action"; text "Due Date"] ].

Definition new_year_2019 : wallclock := mkClock 2019 0 1.
Definition new_year_2020 : wallclock := mkClock 2020 0 1.

(** 2023-03-10T00:00:00Z *)
Definition march_10_2023 : Date := ValidDate 1678406400000.

(** The text the specification quotes for the missing-action error. *)
Definition msg_no_action_spec : string :=
  "Action column not found. Please ensure your Excel file has an 'Action' column.".

Fixpoint frac_digits (fuel : nat) (num den : Z) : string :=
  match fuel with
  | O => ""
  | S fuel' =>
      if num =? 0 then ""
      else string_of_Z (num * 10 / den)
           +:+ frac_digits fuel' ((num * 10) mod den) den
  end.

(** A sample host: numbers print in plain decimal notation, [Date.parse]
    reads the ISO date forms only, and local time is UTC+05:30. *)
Module Host.

Definition Number_toString (q : Q) : string :=
  let n := Z.abs (Qnum q) in
  let d := Zpos (Qden q) in
  (if Qnum q <? 0 then "-" else "") +:+ string_of_Z (n / d)
  +:+ (if n mod d =? 0 then "" else "." +:+ frac_digits 17 (n mod d) d).

Definition Date_parse_impl (s : string) : option Z := None.

Definition LocalTZA (t : Z) : Z := 19800000.

End Host.

End Samples.

Section Analyzer.

Import JS XLSX.

(** Number::toString, as the host prints a number. *)
Variable Number_toString : Q -> string.

(** What [Date.parse] answers on a string that is not one of the ISO
    date-only forms ([None] is NaN). *)
Variable Date_parse_impl : string -> option Z.

(** The offset (ms) of the host's local time from UTC at local time [t]. *)
Variable LocalTZA : Z -> Z.

(** [String(v)] *)
Definition String_ (v : value) : string :=
  match v with
  | VUndefined => "undefined"
  | VNull => "null"
  | VBool true => "true"
  | VBool false => "false"
  | VNumber n => Number_toString n
  | VString s => s
  end.

Definition Date_parse (s : string) : option Z :=
  match parse_iso_date s with
  | Some t => Some t
  | None => Date_parse_impl s
  end.

(** [new Date(v)] with one argument: a string is parsed, anything else
    is converted to a number. *)
Definition new_Date (v : value) : Date :=
  match v with
  | VString s =>
      match Date_parse s with
      | Some t => TimeClip (inject_Z t)
      | None => InvalidDate
      end
  | VNumber n => TimeClip n
  | VBool b => ValidDate (if b then 1 else 0)
  | VNull => ValidDate 0
  | VUndefined => InvalidDate
  end.

(** [new Date(year, month, date)]: local midnight of that civil date. *)
Definition new_Date_ymd (year month date : Z) : Date :=
  let yr := if (0 <=? year) && (year <=? 99) then 1900 + year else year in
  let t := MakeDay yr month date * msPerDay in
  TimeClip (inject_Z (t - LocalTZA t)).

Definition isAssigned (value : value) : bool :=
  match value with
  | VNull | VUndefined | VString EmptyString => false
  | _ =>
      let str := trim (toLowerCase (String_ value)) in
      array_includes positive_tokens str
      || (negb (str =? "no")%string && negb (str =? "false")%string
          && negb (str =? "unassigned")%string && negb (str =? "0")%string
          && negb (str =? "")%string)
  end.

Definition excelEpoch : Date := new_Date_ymd 1900 0 1.

Definition parseDate (dateValue : value) : option Date :=
  if negb (truthy dateValue) then None
  else
    match dateValue with
    | VNumber n =>
        let days := (n - 2)%Q in
        Some (match getTime excelEpoch with
              | Some e => TimeClip (inject_Z e + days * 24 * 60 * 60 * 1000)%Q
              | None => InvalidDate
              end)
    | _ =>
        let parsed := new_Date dateValue in
        match getTime parsed with
        | None => None
        | Some _ => Some parsed
        end
    end.

Definition getTodayInKolkata (kolkataTime : wallclock) : Date :=
  new_Date_ymd (fullYear kolkataTime) (month kolkataTime) (date kolkataTime).

(** [cell?.w || cell?.v] *)
Definition w_or_v (c : option cell) : value :=
  match c with
  | Some c => JS.or (prop_w c) (cell_v c)
  | None => VUndefined
  end.

(** The header text of a cell of row 0:
    [String(cell.w || cell.v || '').toLowerCase().trim()]. *)
Definition header_of (c : cell) : string :=
  trim (toLowerCase
          (String_ (JS.or (JS.or (prop_w c) (cell_v c)) (VString "")))).

(** One iteration of the header loop of [findColumns]. *)
Definition findColumns_step (ws : worksheet)
    (acc : option string * option string) (col : nat)
  : option string * option string :=
  let '(actionCol, dueDateCol) := acc in
  match ws_cells ws !! encode_cell 0 col with
  | None => acc
  | Some cell =>
      let header := header_of cell in
      if includes "action" header && falsy_col actionCol then
        (Some (encode_col col), dueDateCol)
      else if (includes "due" header && includes "date" header)
              || ((header =? "due date")%string && falsy_col dueDateCol) then
        (actionCol, Some (encode_col col))
      else acc
  end.

(** The columns [range.s.c .. range.e.c] the header loop visits. *)
Definition header_cols (ws : worksheet) : list nat :=
  let range := decode_ref ws in
  seq (s_c range) (S (e_c range) - s_c range).

Definition findColumns (ws : worksheet) : option string * option string :=
  fold_left (findColumns_step ws) (header_cols ws) (None, None).

(** The address [`${col}${row + 1}`] and the cell stored there. *)
Definition cell_at (ws : worksheet) (col : string) (row : nat) : option cell :=
  ws_cells ws !! (col +:+ string_of_nat (row + 1)).

(** One iteration of the row loop of [analyzeExcel]. *)
Definition analyze_row (ws : worksheet) (today : Date)
    (actionCol : string) (dueDateCol : option string)
    (acc : counters) (row : nat) : counters :=
  let actionCell := cell_at ws actionCol row in
  if (match actionCell with None => true | Some _ => false end)
     && falsy_col dueDateCol then acc
  else
    let total := totalRows acc + 1 in
    if isAssigned (w_or_v actionCell) then
      let assigned := assignedCount acc + 1 in
      match dueDateCol with
      | Some dueCol =>
          if falsy_col dueDateCol then
            mkCounters total assigned (overdueCount acc)
          else
            match parseDate (w_or_v (cell_at ws dueCol row)) with
            | Some dueDate =>
                if date_lt dueDate today
                then mkCounters total assigned (overdueCount acc + 1)
                else mkCounters total assigned (overdueCount acc)
            | None => mkCounters total assigned (overdueCount acc)
            end
      | None => mkCounters total assigned (overdueCount acc)
      end
    else mkCounters total (assignedCount acc) (overdueCount acc).

(** The data rows [1 .. range.e.r]. *)
Definition data_rows (ws : worksheet) : list nat :=
  seq 1 (e_r (decode_ref ws)).

Definition analyze_rows (ws : worksheet) (today : Date)
    (actionCol : string) (dueDateCol : option string) : counters :=
  fold_left (analyze_row ws today actionCol dueDateCol) (data_rows ws)
            (mkCounters 0 0 0).

(** The body of the [try] block of [analyzeExcel], from the worksheet on;
    [kolkataTime] is the clock reading [getTodayInKolkata] starts from. *)
Definition analyzeExcel (kolkataTime : wallclock) (ws : worksheet)
  : exception + AnalysisResult :=
  let '(actionCol, dueDateCol) := findColumns ws in
  match actionCol with
  | None => inl (Error msg_no_action)
  | Some actionCol =>
      if (actionCol =? "")%string then inl (Error msg_no_action)
      else
        let notes := if falsy_col dueDateCol then [msg_no_due_date] else [] in
        let today := getTodayInKolkata kolkataTime in
        let c := analyze_rows ws today actionCol dueDateCol in
        let assignedPct := percent (assignedCount c) (totalRows c) in
        let overduePctOfAssigned :=
          percent (overdueCount c) (assignedCount c) in
        let summary :=
          "Total: " +:+ string_of_Z (totalRows c)
          +:+ " | Assigned: " +:+ string_of_Z (assignedCount c)
          +:+ " (" +:+ toFixed0 assignedPct +:+ "%) | Overdue: "
          +:+ string_of_Z (overdueCount c)
          +:+ " (" +:+ toFixed0 overduePctOfAssigned +:+ "%)" in
        match today with
        | InvalidDate => inl RangeError_invalid_time
        | ValidDate t =>
            inr {| total_rows := totalRows c;
                   assigned_count := assignedCount c;
                   assigned_pct := round1 assignedPct;
                   overdue_count := overdueCount c;
                   overdue_pct_of_assigned := round1 overduePctOfAssigned;
                   today_iso := iso_date_of_time t;
                   timezone := "Asia/Kolkata";
                   columns_used :=
                     {| action := actionCol;
                        due_date := match dueDateCol with
                                    | Some d =>
                                        if (d =? "")%string then not_found
                                        else d
                                    | None => not_found
                                    end |};
                   notes := notes;
                   summary := summary |}
        end
  end.

(** *** Vocabulary of the specification *)

(** Blank or absent: [null], [undefined] or the empty string. *)
Definition is_blank (v : value) : bool :=
  match v with
  | VNull | VUndefined | VString EmptyString => true
  | _ => false
  end.

(** The lower-cased, trimmed stringification of a value. *)
Definition normalized (v : value) : string := trim (toLowerCase (String_ v)).

Definition negative_tokens : list string :=
  ["no"; "false"; "unassigned"; "0"; ""].

(** The assignment rule as the specification words it. *)
Definition assignment_rule (v : value) : bool :=
  if is_blank v then false
  else if array_includes positive_tokens (normalized v) then true
  else negb (array_includes negative_tokens (normalized v)).

(** The header text of column [col], when row 0 has a cell there. *)
Definition header_at (ws : worksheet) (col : nat) : option string :=
  match ws_cells ws !! encode_cell 0 col with
  | Some c => Some (header_of c)
  | None => None
  end.

(** The action heuristic: the header contains "action". *)
Definition is_action_header (ws : worksheet) (col : nat) : bool :=
  match header_at ws col with
  | Some h => includes "action" h
  | None => false
  end.

(** The due-date heuristic: the header contains "due" and "date". *)
Definition is_due_header (ws : worksheet) (col : nat) : bool :=
  match header_at ws col with
  | Some h => includes "due" h && includes "date" h
  | None => false
  end.

(** [col] is one of the columns [range.s.c .. range.e.c]. *)
Definition in_header_range (ws : worksheet) (col : nat) : Prop :=
  (s_c (decode_ref ws) <= col <= e_c (decode_ref ws))%nat.

(** First-match-wins, as the specification words it: the leftmost column
    whose header meets the due-date heuristic. *)
Definition first_due_header (ws : worksheet) : option nat :=
  head (filter (fun col => is_due_header ws col = true) (header_cols ws)).

(** The columns the scan considers for the due date, in scan order: a
    header that is taken as the action column at its step is not
    considered. [seen] tells whether an action column is already set. *)
Fixpoint due_candidates (ws : worksheet) (seen : bool) (cols : list nat)
  : list nat :=
  match cols with
  | [] => []
  | col :: cols' =>
      if is_action_header ws col && negb seen then due_candidates ws true cols'
      else if is_due_header ws col then col :: due_candidates ws seen cols'
      else due_candidates ws seen cols'
  end.

(** [col] is considered for the due date: it meets the due-date heuristic
    and, if it also meets the action heuristic, an earlier column of the
    range already met it. *)
Definition due_candidate (ws : worksheet) (col : nat) : Prop :=
  in_header_range ws col /\ is_due_header ws col = true /\
  (is_action_header ws col = true ->
   exists k, (s_c (decode_ref ws) <= k < col)%nat /\
             is_action_header ws k = true).

(** A due-date value that is missing (blank or absent) or a string that
    does not parse to a valid date. *)
Definition no_due_date (v : value) : Prop :=
  is_blank v = true \/ exists s, v = VString s /\ new_Date v = InvalidDate.


(** The quotation marks of the message as the specification prints it:
    an apostrophe where the program has a double quotation mark. *)
Fixpoint requote (s : string) : string :=
  match s with
  | EmptyString => EmptyString
  | String c s' =>
      String (if (nat_of_ascii c =? 39)%nat then dquote else c) (requote s')
  end.

(** The outcome Scenario A of the specification expects. *)
Definition scenario_A_outcome (o : exception + AnalysisResult) : Prop :=
  exists r, o = inr r /\
    total_rows r = 3 /\ assigned_count r = 2 /\ overdue_count r = 2 /\
    (assigned_pct r == 66.7)%Q /\ (overdue_pct_of_assigned r == 100.0)%Q.


(** The counters stay ordered. *)
Definition counters_ordered (c : counters) : Prop :=
  0 <= overdueCount c /\ overdueCount c <= assignedCount c /\
  assignedCount c <= totalRows c.

(** The record the analysis builds once the action column is known and
    today's date is valid. *)
Definition result_of (ws : worksheet) (t : Z) (a : string) (d : option string)
  : AnalysisResult :=
  let c := analyze_rows ws (ValidDate t) a d in
  let assignedPct := percent (assignedCount c) (totalRows c) in
  let overduePctOfAssigned := percent (overdueCount c) (assignedCount c) in
  {| total_rows := totalRows c;
     assigned_count := assignedCount c;
     assigned_pct := round1 assignedPct;
     overdue_count := overdueCount c;
     overdue_pct_of_assigned := round1 overduePctOfAssigned;
     today_iso := iso_date_of_time t;
     timezone := "Asia/Kolkata";
     columns_used :=
       {| action := a;
          due_date := match d with
                      | Some d => if (d =? "")%string then not_found else d
                      | None => not_found
                      end |};
     notes := if falsy_col d then [msg_no_due_date] else [];
     summary :=
       "Total: " +:+ string_of_Z (totalRows c)
       +:+ " | Assigned: " +:+ string_of_Z (assignedCount c)
       +:+ " (" +:+ toFixed0 assignedPct +:+ "%) | Overdue: "
       +:+ string_of_Z (overdueCount c)
       +:+ " (" +:+ toFixed0 overduePctOfAssigned +:+ "%)" |}.

(** *** Rows, one at a time *)

(** The action cell of the row exists. *)
Definition has_action_cell (ws : worksheet) (a : string) (row : nat) : bool :=
  match cell_at ws a row with Some _ => true | None => false end.

(** The row is counted in [totalRows]. *)
Definition row_counted (ws : worksheet) (a : string) (d : option string)
    (row : nat) : bool :=
  has_action_cell ws a row || negb (falsy_col d).

(** The action value of the row classifies as assigned. *)
Definition row_assigned (ws : worksheet) (a : string) (row : nat) : bool :=
  isAssigned (w_or_v (cell_at ws a row)).

(** A due-date column exists and the due date of the row parses to a date
    before [today]. *)
Definition due_before (ws : worksheet) (today : Date) (d : option string)
    (row : nat) : bool :=
  match d with
  | Some dueCol =>
      negb (falsy_col d) &&
      match parseDate (w_or_v (cell_at ws dueCol row)) with
      | Some dueDate => date_lt dueDate today
      | None => false
      end
  | None => false
  end.

Definition row_overdue (ws : worksheet) (today : Date) (a : string)
    (d : option string) (row : nat) : bool :=
  row_assigned ws a row && due_before ws today d row.

(** How many of [rows] satisfy [p]. *)
Definition count_rows (p : nat -> bool) (rows : list nat) : Z :=
  Z.of_nat (length (List.filter p rows)).

(** Every character is one of the capital letters A to Z. *)
Fixpoint all_upper (s : string) : bool :=
  match s with
  | EmptyString => true
  | String c s' => is_upper c && all_upper s'
  end.

(** Local midnight, as a local time value, of the civil date the clock
    shows (the argument of UTC() in [new Date(year, month, date)]). *)
Definition clock_midnight (kolkataTime : wallclock) : Z :=
  let year := fullYear kolkataTime in
  let yr := if (0 <=? year) && (year <=? 99) then 1900 + year else year in
  MakeDay yr (month kolkataTime) (date kolkataTime) * msPerDay.

(** *** The component: state and event handlers *)

(** A value thrown while the file is read (lines 84 to 87): an [Error]
    with its message, or anything else. *)
Inductive thrown : Type :=
  | ThrownError (message : string)
  | ThrownOther.

(** The [File] objects of the browser: their name, and what reading the
    first sheet of the workbook gives ([file.arrayBuffer()], [XLSX.read],
    [workbook.Sheets[workbook.SheetNames[0]]] and the decoding of its
    range). *)
Section Component.

Context {File : Type}.
Variable file_name : File -> string.
Variable read_sheet : File -> thrown + worksheet.

(** The message the engine gives the RangeError of [toISOString]. *)
Variable RangeError_message : string.

Record toast_message : Type := mkToast {
  title : string;
  description : string;
  destructive : bool
}.

(** The state of the component ([useState], lines 22 to 25). *)
Record component : Type := mkComponent {
  dragActive : bool;
  isAnalyzing : bool;
  result : option AnalysisResult;
  error : option string
}.

(** [err instanceof Error ? err.message : 'Failed to analyze Excel file'] *)
Definition errorMessage_of_thrown (err : thrown) : string :=
  match err with
  | ThrownError message => message
  | ThrownOther => "Failed to analyze Excel file"
  end.

Definition errorMessage_of_exception (err : exception) : string :=
  match err with
  | Error message => message
  | RangeError_invalid_time => RangeError_message
  end.

(** The callback [analyzeExcel] (lines 78 to 168) is asynchronous. It runs
    in two steps, and other handlers, other runs of the callback among
    them, may run in between: the first step goes up to
    [await file.arrayBuffer()] (lines 79 to 84), the second from there to
    the end (lines 84 to 167). *)

(** The first step: the three state updates of lines 79 to 81. *)
Definition analyzeExcel_begin (st : component) : component :=
  mkComponent (dragActive st) true None None.

(** What the [try] block arrives at once the file is read: the result, or
    the [errorMessage] of the [catch] clause. *)
Definition analysis_outcome (kolkataTime : wallclock) (file : File)
  : string + AnalysisResult :=
  match read_sheet file with
  | inl err => inl (errorMessage_of_thrown err)
  | inr worksheet =>
      match analyzeExcel kolkataTime worksheet with
      | inl err => inl (errorMessage_of_exception err)
      | inr analysisResult => inr analysisResult
      end
  end.

(** The second step, on the state it finds: [setResult] and the toast of
    lines 151 to 155, or the [catch] clause, and then the [finally]
    clause. *)
Definition analyzeExcel_resume (kolkataTime : wallclock) (file : File)
    (st : component) : component * list toast_message :=
  match analysis_outcome kolkataTime file with
  | inr analysisResult =>
      (mkComponent (dragActive st) false (Some analysisResult) (error st),
       [mkToast "Analysis Complete"
          ("Analyzed " +:+ string_of_Z (total_rows analysisResult)
           +:+ " rows successfully") false])
  | inl errorMessage =>
      (mkComponent (dragActive st) false (result st) (Some errorMessage),
       [mkToast "Analysis Failed" errorMessage true])
  end.

(** A step of some run of the callback. *)
Inductive run_step : Type :=
  | Begin
  | Resume (kolkataTime : wallclock) (file : File).

(** The state after a step. *)
Definition after_step (st : component) (step : run_step) : component :=
  match step with
  | Begin => analyzeExcel_begin st
  | Resume kolkataTime file => fst (analyzeExcel_resume kolkataTime file st)
  end.

(** The result a step stores, if it stores one. *)
Definition step_result (step : run_step) : option AnalysisResult :=
  match step with
  | Begin => None
  | Resume kolkataTime file =>
      match analysis_outcome kolkataTime file with
      | inr analysisResult => Some analysisResult
      | inl _ => None
      end
  end.

(** The error message a step stores, if it stores one. *)
Definition step_error (step : run_step) : option string :=
  match step with
  | Begin => None
  | Resume kolkataTime file =>
      match analysis_outcome kolkataTime file with
      | inr _ => None
      | inl errorMessage => Some errorMessage
      end
  end.

(** [handleDrag] (lines 170 to 178), on the type of the event. *)
Definition handleDrag (type : string) (st : component) : component :=
  if (type =? "dragenter")%string || (type =? "dragover")%string then
    mkComponent true (isAnalyzing st) (result st) (error st)
  else if (type =? "dragleave")%string then
    mkComponent false (isAnalyzing st) (result st) (error st)
  else st.

(** What a handler does after it has updated the state. *)
Inductive request : Type :=
  | Analyze (file : File)
  | ShowToast (t : toast_message)
  | Nothing.

(** The test of [handleDrop] on a file. *)
Definition is_excel_name (name : string) : bool :=
  endsWith name ".xlsx" || endsWith name ".xls".

(** [handleDrop] (lines 180 to 199), on [e.dataTransfer.files]. *)
Definition handleDrop (files : list File) (st : component)
  : component * request :=
  let st := mkComponent false (isAnalyzing st) (result st) (error st) in
  match List.find (fun file => is_excel_name (file_name file)) files with
  | Some excelFile => (st, Analyze excelFile)
  | None =>
      (st, ShowToast (mkToast "Invalid File Type"
                        "Please upload an Excel file (.xlsx or .xls)" true))
  end.

(** [handleFileInput] (lines 201 to 206), on [e.target.files]. *)
Definition handleFileInput (files : option (list File)) : request :=
  match files with
  | Some (file :: _) => Analyze file
  | _ => Nothing
  end.

End Component.

(** The event types [handleDrag] reacts to. *)
Definition is_drag_type (type : string) : bool :=
  (type =? "dragenter")%string || (type =? "dragover")%string
  || (type =? "dragleave")%string.

(** A name that ends in ".xlsx" or in ".xls", letter case included. *)
Definition excel_name (name : string) : Prop :=
  exists stem, name = stem +:+ ".xlsx" \/ name = stem +:+ ".xls".

(** ** Properties *)

(** *** Strings and columns *)

Lemma encode_col_loop_nonempty fuel col s :
  s <> "" -> encode_col_loop fuel col s <> "".
Proof.
  revert col s.
  induction fuel as [|fuel IH]; intros col s Hs; cbn [encode_col_loop]; [done|].
  destruct (col =? 0)%nat; [done|]. apply IH. discriminate.
Qed.

Lemma encode_col_nonempty col : encode_col col <> "".
Proof.
  unfold encode_col. cbn [encode_col_loop Nat.eqb].
  apply encode_col_loop_nonempty. discriminate.
Qed.

(** The fuel of [encode_col] is enough: the loop has reached [col = 0]
    when it stops, so more fuel changes nothing. *)
Lemma encode_col_loop_fuel fuel fuel' col s :
  (col <= fuel)%nat -> (col <= fuel')%nat ->
  encode_col_loop fuel col s = encode_col_loop fuel' col s.
Proof.
  revert fuel' col s. induction fuel as [|fuel IH]; intros fuel' col s H H'.
  - assert (col = 0%nat) as -> by lia. destruct fuel'; reflexivity.
  - destruct fuel' as [|fuel'].
    + assert (col = 0%nat) as -> by lia. reflexivity.
    + cbn [encode_col_loop]. destruct (Nat.eqb_spec col 0); [done|].
      assert ((col - 1) / 26 <= col - 1)%nat
        by (apply Nat.Div0.div_le_upper_bound; lia).
      apply IH; lia.
Qed.

Lemma falsy_col_encode col : falsy_col (Some (encode_col col)) = false.
Proof.
  simpl. destruct (String.eqb_spec (encode_col col) ""); [|done].
  by destruct (encode_col_nonempty col).
Qed.

Lemma due_date_text_matches h :
  (h =? "due date")%string = true ->
  includes "due" h && includes "date" h = true.
Proof. intros ->%String.eqb_eq. reflexivity. Qed.

(** On line 70 [&&] binds tighter than [||]: the test for an already
    chosen due-date column guards the exact comparison only, and that
    comparison is subsumed by the two substring tests. *)
Lemma due_test_unguarded h d :
  (includes "due" h && includes "date" h)
  || ((h =? "due date")%string && falsy_col d)
  = includes "due" h && includes "date" h.
Proof.
  destruct (includes "due" h && includes "date" h) eqn:E; [done|].
  destruct (h =? "due date")%string eqn:E'; [|done].
  apply due_date_text_matches in E'. congruence.
Qed.

Lemma findColumns_step_eq ws a d col :
  findColumns_step ws (a, d) col =
  if is_action_header ws col && falsy_col a then (Some (encode_col col), d)
  else if is_due_header ws col then (a, Some (encode_col col))
  else (a, d).
Proof.
  unfold findColumns_step, is_action_header, is_due_header, header_at.
  destruct (ws_cells ws !! encode_cell 0 col) as [c|]; [|done].
  by rewrite due_test_unguarded.
Qed.

(** *** The header scan *)

(** What the scan computes from any state in which the action column is
    either unset or a non-empty label: the action column is the leftmost
    action header still to come, and the due-date column is the LAST
    column considered for the due date. *)
Lemma findColumns_fold ws cols a d :
  a = None \/ falsy_col a = false ->
  fold_left (findColumns_step ws) cols (a, d) =
  (match a with
   | Some _ => a
   | None =>
       encode_col <$> head (filter (fun c => is_action_header ws c = true) cols)
   end,
   match last (due_candidates ws (negb (falsy_col a)) cols) with
   | Some c => Some (encode_col c)
   | None => d
   end).
Proof.
  revert a d. induction cols as [|col cols IH]; intros a d Ha.
  - simpl. by destruct a.
  - cbn [fold_left due_candidates]. rewrite findColumns_step_eq.
    destruct (is_action_header ws col) eqn:Hact; cbn [andb].
    + destruct (falsy_col a) eqn:Hf; cbn [negb].
      * destruct Ha as [-> | ?]; [|congruence].
        rewrite IH by (right; apply falsy_col_encode).
        rewrite falsy_col_encode, filter_cons_True by done. done.
      * destruct a as [a|]; [|done].
        destruct (is_due_header ws col);
          rewrite IH by (by right); rewrite Hf; cbn [negb]; [|done].
        rewrite last_cons. by destruct (last _).
    + rewrite filter_cons_False by (rewrite Hact; done).
      destruct (is_due_header ws col).
      * rewrite IH by done. rewrite last_cons. by destruct (last _).
      * by rewrite IH.
Qed.

Lemma findColumns_eq ws :
  findColumns ws =
  (encode_col <$>
     head (filter (fun c => is_action_header ws c = true) (header_cols ws)),
   encode_col <$> last (due_candidates ws false (header_cols ws))).
Proof.
  unfold findColumns. rewrite findColumns_fold by (by left).
  cbn [falsy_col negb]. by destruct (last _).
Qed.

Lemma elem_of_header_cols ws col :
  col ∈ header_cols ws <-> in_header_range ws col.
Proof.
  unfold header_cols, in_header_range. rewrite elem_of_seq. lia.
Qed.

(** No header meets the action heuristic: no action column. *)
Lemma findColumns_no_action ws :
  (forall col, in_header_range ws col -> is_action_header ws col = false) ->
  fst (findColumns ws) = None.
Proof.
  intros H. rewrite findColumns_eq. cbn [fst].
  destruct (head _) as [c|] eqn:E; [|done].
  apply head_Some_elem_of, list_elem_of_filter in E as [E1 E2].
  apply elem_of_header_cols, H in E2. congruence.
Qed.

(** Some header meets the action heuristic: the action column is set to a
    non-empty label. *)
Lemma findColumns_some_action ws col :
  in_header_range ws col -> is_action_header ws col = true ->
  exists k, fst (findColumns ws) = Some (encode_col k) /\
            in_header_range ws k /\ is_action_header ws k = true.
Proof.
  intros Hr Hc. rewrite findColumns_eq. cbn [fst].
  destruct (head _) as [k|] eqn:E.
  - exists k. split; [done|].
    apply head_Some_elem_of, list_elem_of_filter in E as [E1 E2].
    by apply elem_of_header_cols in E2.
  - apply head_None in E.
    assert (col ∈ filter (fun c => is_action_header ws c = true)
                         (header_cols ws)) as Hin
      by (apply list_elem_of_filter; split; [done|by apply elem_of_header_cols]).
    rewrite E in Hin. by apply not_elem_of_nil in Hin.
Qed.

(** Membership in the list of considered columns, over a run of
    consecutive columns. *)
Lemma elem_of_due_candidates ws seen s n col :
  col ∈ due_candidates ws seen (seq s n) <->
  (s <= col < s + n)%nat /\ is_due_header ws col = true /\
  (is_action_header ws col = true ->
   seen = true \/
   exists k, (s <= k < col)%nat /\ is_action_header ws k = true).
Proof.
  revert s seen. induction n as [|n IH]; intros s seen.
  - cbn. split; [by intros ?%not_elem_of_nil | lia].
  - cbn [seq due_candidates].
    destruct (is_action_header ws s) eqn:Hact; cbn [andb].
    + destruct seen; cbn [negb].
      * destruct (is_due_header ws s) eqn:Hdue.
        -- rewrite elem_of_cons, IH. split.
           ++ intros [-> | (? & ? & ?)]; (split; [lia|]); split; auto.
           ++ intros (Hr & Hd & _).
              destruct (decide (col = s)) as [->|]; [by left|].
              right. split; [lia|]. split; auto.
        -- rewrite IH. split.
           ++ intros (? & ? & ?). split; [lia|]. split; auto.
           ++ intros (Hr & Hd & _).
              destruct (decide (col = s)) as [->|]; [congruence|].
              split; [lia|]. split; auto.
      * rewrite IH. split.
        -- intros (? & ? & _). split; [lia|]. split; [done|].
           intros _. right. exists s. split; [lia|done].
        -- intros (Hr & Hd & Hk).
           destruct (decide (col = s)) as [->|].
           ++ destruct (Hk Hact) as [? | (k & ? & ?)]; [done | lia].
           ++ split; [lia|]. split; auto.
    + destruct (is_due_header ws s) eqn:Hdue.
      * rewrite elem_of_cons, IH. split.
        -- intros [-> | (? & ? & Hk)].
           ++ split; [lia|]. split; [done|]. congruence.
           ++ split; [lia|]. split; [done|]. intros Hc.
              destruct (Hk Hc) as [? | (k & ? & ?)]; [by left|].
              right. exists k. split; [lia|done].
        -- intros (Hr & Hd & Hk).
           destruct (decide (col = s)) as [->|]; [by left|].
           right. split; [lia|]. split; [done|]. intros Hc.
           destruct (Hk Hc) as [? | (k & ? & ?)]; [by left|].
           right. exists k. split; [|done].
           destruct (decide (k = s)) as [->|]; [congruence | lia].
      * rewrite IH. split.
        -- intros (? & ? & Hk). split; [lia|]. split; [done|]. intros Hc.
           destruct (Hk Hc) as [? | (k & ? & ?)]; [by left|].
           right. exists k. split; [lia|done].
        -- intros (Hr & Hd & Hk).
           destruct (decide (col = s)) as [->|]; [congruence|].
           split; [lia|]. split; [done|]. intros Hc.
           destruct (Hk Hc) as [? | (k & ? & ?)]; [by left|].
           right. exists k. split; [|done].
           destruct (decide (k = s)) as [->|]; [congruence | lia].
Qed.

Lemma elem_of_due_candidates_range ws col :
  col ∈ due_candidates ws false (header_cols ws) <-> due_candidate ws col.
Proof.
  unfold header_cols, due_candidate, in_header_range.
  rewrite elem_of_due_candidates. split.
  - intros (? & ? & Hk). split; [lia|]. split; [done|]. intros Hc.
    by destruct (Hk Hc).
  - intros (? & ? & Hk). split; [lia|]. split; [done|]. intros Hc.
    right. by apply Hk.
Qed.

(** *** The row loop *)

Lemma fold_left_invariant {A B : Type} (P : A -> Prop) (f : A -> B -> A)
    (l : list B) (a : A) :
  P a -> (forall x b, P x -> P (f x b)) -> P (fold_left f l a).
Proof.
  intros Ha Hf. revert a Ha.
  induction l as [|b l IH]; intros a Ha; cbn; auto.
Qed.

Lemma analyze_row_ordered ws today a d acc row :
  counters_ordered acc -> counters_ordered (analyze_row ws today a d acc row).
Proof.
  unfold counters_ordered, analyze_row. intros (H1 & H2 & H3).
  repeat match goal with
         | |- context [if ?b then _ else _] => destruct b
         | |- context [match ?x with Some _ => _ | None => _ end] => destruct x
         end; cbn; lia.
Qed.

Lemma analyze_rows_ordered ws today a d :
  counters_ordered (analyze_rows ws today a d).
Proof.
  unfold analyze_rows. apply fold_left_invariant.
  - unfold counters_ordered; cbn; lia.
  - intros; by apply analyze_row_ordered.
Qed.

(** Without a due-date column no row is ever counted overdue. *)
Lemma analyze_row_no_due ws today a d acc row :
  falsy_col d = true ->
  overdueCount (analyze_row ws today a d acc row) = overdueCount acc.
Proof.
  intros Hd. unfold analyze_row. rewrite Hd.
  destruct (cell_at ws a row); cbn [andb]; [|done].
  destruct (isAssigned _); [|done].
  by destruct d.
Qed.

Lemma analyze_rows_no_due ws today a d :
  falsy_col d = true -> overdueCount (analyze_rows ws today a d) = 0.
Proof.
  intros Hd. unfold analyze_rows.
  apply (fold_left_invariant (fun c => overdueCount c = 0)); [done|].
  intros x b Hx. by rewrite analyze_row_no_due.
Qed.

(** *** The analysis as a whole *)

Lemma analyzeExcel_success clock ws a d t :
  findColumns ws = (Some a, d) -> a <> "" ->
  getTodayInKolkata clock = ValidDate t ->
  analyzeExcel clock ws = inr (result_of ws t a d).
Proof.
  intros Hc Ha Ht. unfold analyzeExcel. rewrite Hc, Ht.
  destruct (String.eqb_spec a ""); [done|]. reflexivity.
Qed.

Lemma analyzeExcel_inr clock ws r :
  analyzeExcel clock ws = inr r ->
  exists a d t, findColumns ws = (Some a, d) /\ a <> "" /\
                getTodayInKolkata clock = ValidDate t /\
                r = result_of ws t a d.
Proof.
  unfold analyzeExcel. destruct (findColumns ws) as [[a|] d]; [|done].
  destruct (String.eqb_spec a ""); [done|].
  destruct (getTodayInKolkata clock) as [t|] eqn:Ht; [|done].
  intros [= <-]. by exists a, d, t.
Qed.

Lemma analyzeExcel_no_action clock ws :
  fst (findColumns ws) = None ->
  analyzeExcel clock ws = inl (Error msg_no_action).
Proof.
  unfold analyzeExcel. destruct (findColumns ws) as [a d]. cbn [fst].
  by intros ->.
Qed.

(** *** The assignment classifier *)

(** C5. [isAssigned] is the rule of the specification: a blank or absent
    value is not assigned; otherwise the lower-cased, trimmed text decides:
    one of "yes", "true", "assigned", "done", "1" is assigned, and any other
    text is assigned unless it is one of "no", "false", "unassigned", "0"
    or empty. In particular "No" is not assigned and "Maybe" is. *)
Theorem C5_isAssigned_rule :
  (forall v, isAssigned v = assignment_rule v) /\
  isAssigned (VString "No") = false /\
  isAssigned (VString "Maybe") = true.
Proof.
  split; [|split; reflexivity].
  intros v. unfold isAssigned, assignment_rule, normalized.
  assert (forall str,
    array_includes positive_tokens str
    || (negb (str =? "no")%string && negb (str =? "false")%string
        && negb (str =? "unassigned")%string && negb (str =? "0")%string
        && negb (str =? "")%string)
    = if array_includes positive_tokens str then true
      else negb (array_includes negative_tokens str)) as Hrule.
  { intros str. destruct (array_includes positive_tokens str); [done|].
    unfold array_includes, negative_tokens. cbn [existsb orb].
    destruct (str =? "no")%string, (str =? "false")%string,
      (str =? "unassigned")%string, (str =? "0")%string,
      (str =? "")%string; reflexivity. }
  destruct v as [| |b|n|s]; cbn [is_blank]; try done; try apply Hrule.
  destruct s; [done|]. apply Hrule.
Qed.

(** *** Counts *)

(** C6. Every successful analysis returns counts with
    [0 <= overdue_count <= assigned_count <= total_rows]. *)
Theorem C6_counts_ordered clock ws r :
  analyzeExcel clock ws = inr r ->
  0 <= overdue_count r /\ overdue_count r <= assigned_count r /\
  assigned_count r <= total_rows r.
Proof.
  intros (a & d & t & _ & _ & _ & ->)%analyzeExcel_inr.
  apply (analyze_rows_ordered ws (ValidDate t) a d).
Qed.

(** *** Missing columns *)

(** C7 (amended). When no header of row 0 meets the action heuristic the
    analysis fails with an [Error] and returns no result; its message is
    the sentence of the specification with the word Action between double
    quotation marks (the specification prints apostrophes there). *)
Theorem C7_missing_action_column clock ws :
  (forall col, in_header_range ws col -> is_action_header ws col = false) ->
  analyzeExcel clock ws = inl (Error msg_no_action) /\
  msg_no_action = requote Samples.msg_no_action_spec.
Proof.
  intros H. split; [|reflexivity].
  by apply analyzeExcel_no_action, findColumns_no_action.
Qed.

Lemma findColumns_no_due ws :
  (forall col, in_header_range ws col -> is_due_header ws col = false) ->
  snd (findColumns ws) = None.
Proof.
  intros H. rewrite findColumns_eq. cbn [snd].
  destruct (last _) as [c|] eqn:E; [|done].
  apply last_Some_elem_of, elem_of_due_candidates_range in E as (Hr & Hd & _).
  apply H in Hr. congruence.
Qed.

(** C8. A workbook with an action header and no due-date header is
    analysed successfully (given a valid date for today): no row is
    overdue, the only note is the sentence about the missing due-date
    column, and [columns_used.due_date] is "Not found". *)
Theorem C8_missing_due_date_column clock ws t col :
  getTodayInKolkata clock = ValidDate t ->
  in_header_range ws col -> is_action_header ws col = true ->
  (forall c, in_header_range ws c -> is_due_header ws c = false) ->
  exists r, analyzeExcel clock ws = inr r /\
            overdue_count r = 0 /\
            notes r = [msg_no_due_date] /\
            due_date (columns_used r) = not_found.
Proof.
  intros Ht Hr Hc Hd.
  destruct (findColumns_some_action ws col Hr Hc) as (k & Hk & _).
  pose proof (findColumns_no_due ws Hd) as Hn.
  destruct (findColumns ws) as [a d] eqn:E. cbn [fst snd] in Hk, Hn. subst a d.
  exists (result_of ws t (encode_col k) None). split.
  - apply analyzeExcel_success; [done | apply encode_col_nonempty | done].
  - split; [|done]. by apply analyze_rows_no_due.
Qed.

(** *** The date normalizer *)

Lemma new_Date_invalid_getTime v :
  getTime (new_Date v) = None <-> new_Date v = InvalidDate.
Proof. by destruct (new_Date v). Qed.

Lemma parseDate_None_iff v :
  parseDate v = None <->
  truthy v = false \/ (is_number v = false /\ new_Date v = InvalidDate).
Proof.
  unfold parseDate. destruct (truthy v) eqn:Htr; cbn [negb].
  - destruct v as [| |b|n|s]; cbn [is_number]; try discriminate Htr.
    + cbn [new_Date getTime]. intuition congruence.
    + intuition congruence.
    + destruct (new_Date (VString s)); cbn [getTime]; intuition congruence.
  - intuition congruence.
Qed.

Lemma parseDate_no_due_date v : no_due_date v -> parseDate v = None.
Proof.
  intros [Hb | (s & -> & Hs)]; apply parseDate_None_iff.
  - left. destruct v as [| |b|n|s]; try done. by destruct s.
  - right. done.
Qed.

(** C9. [parseDate] is total and answers [None] exactly on a falsy value
    or on a non-number that does not convert to a valid date; so a missing
    or unparseable due-date value yields [None]. A row with such a value
    never adds to the overdue count, and when its action value is assigned
    it adds one to the total and one to the assigned count. *)
Theorem C9_unparseable_never_overdue :
  (forall v, parseDate v = None <->
             truthy v = false \/
             (is_number v = false /\ new_Date v = InvalidDate)) /\
  (forall v, no_due_date v -> parseDate v = None) /\
  (forall ws today a d acc row,
     no_due_date (w_or_v (cell_at ws d row)) ->
     overdueCount (analyze_row ws today a (Some d) acc row)
     = overdueCount acc) /\
  (forall ws today a d acc row,
     isAssigned (w_or_v (cell_at ws a row)) = true ->
     no_due_date (w_or_v (cell_at ws d row)) ->
     analyze_row ws today a (Some d) acc row =
     mkCounters (totalRows acc + 1) (assignedCount acc + 1) (overdueCount acc)).
Proof.
  split; [apply parseDate_None_iff|]. split; [apply parseDate_no_due_date|].
  split.
  - intros ws today a d acc row Hd. unfold analyze_row.
    rewrite (parseDate_no_due_date _ Hd).
    destruct (cell_at ws a row), (falsy_col (Some d)), (isAssigned _);
      reflexivity.
  - intros ws today a d acc row Ha Hd. unfold analyze_row.
    rewrite Ha, (parseDate_no_due_date _ Hd).
    destruct (cell_at ws a row) as [c|] eqn:Hc.
    + cbn [andb]. by destruct (falsy_col (Some d)).
    + done.
Qed.

(** *** Time values *)

Lemma truncate_inject_Z z : truncate (inject_Z z) = z.
Proof.
  unfold truncate. destruct (Qle_bool 0 (inject_Z z));
    [apply Qfloor_Z | apply Qceiling_Z].
Qed.

Lemma TimeClip_inject_Z z :
  Z.abs z <= maxTime -> TimeClip (inject_Z z) = ValidDate z.
Proof.
  intros Hz. unfold TimeClip.
  assert (Qle_bool (Qabs (inject_Z z)) (inject_Z maxTime) = true) as ->.
  { apply Qle_bool_iff. unfold Qle. cbn. lia. }
  by rewrite truncate_inject_Z.
Qed.




(** *** Serial dates *)


(** *** Percentages *)

Lemma round1_comp q q' : (q == q')%Q -> (round1 q == round1 q')%Q.
Proof. intros Hq. unfold round1, Math_round. by rewrite Hq. Qed.

Lemma percent_zero_num den : (percent 0 den == 0)%Q.
Proof.
  unfold percent. destruct (0 <? den); [|reflexivity].
  unfold Qdiv. change (inject_Z 0) with 0%Q. ring.
Qed.

(** C3 (amended). After a successful analysis: [assigned_pct] is 0 if
    [total_rows] is 0, and also whenever [assigned_count] is 0 (so a zero
    percentage does not tell that there are no rows); and whenever
    [total_rows > 0], [assigned_pct] is [100 * assigned_count / total_rows]
    rounded to one decimal: the tenth [k / 10] whose whole number [k], the
    value of [Math.round], is at most one half away from ten times the
    exact percentage (at a tie either neighbour qualifies). The rounding
    part is stated for sheets of at most 1 048 576 rows, the row limit of
    an xlsx sheet: there ten times the exact percentage is a tie or lies
    at least [1 / (2 * total_rows)] away from one, far more than the
    double arithmetic of lines 130 and 138 can err. *)
Theorem C3_assigned_pct clock ws r :
  analyzeExcel clock ws = inr r ->
  (total_rows r = 0 -> (assigned_pct r == 0)%Q) /\
  (assigned_count r = 0 -> (assigned_pct r == 0)%Q) /\
  (0 < total_rows r -> total_rows r <= 1048576 ->
   let exact :=
     (100 * inject_Z (assigned_count r) / inject_Z (total_rows r))%Q in
   exists k : Z,
     (assigned_pct r == inject_Z k / 10)%Q /\
     (10 * exact - 1 / 2 <= inject_Z k)%Q /\
     (inject_Z k <= 10 * exact + 1 / 2)%Q).
Proof.
  intros (a & d & t & _ & _ & _ & ->)%analyzeExcel_inr.
  unfold result_of. cbn [total_rows assigned_count assigned_pct].
  set (c := analyze_rows ws (ValidDate t) a d).
  split; [|split].
  - intros H. unfold percent. rewrite H. reflexivity.
  - intros H. rewrite H. rewrite (round1_comp _ _ (percent_zero_num _)).
    reflexivity.
  - intros H _.
    set (exact :=
           (100 * inject_Z (assignedCount c) / inject_Z (totalRows c))%Q).
    exists (Math_round (percent (assignedCount c) (totalRows c) * 10)).
    split; [reflexivity|].
    assert (percent (assignedCount c) (totalRows c) == exact)%Q as Hp.
    { unfold percent, exact.
      destruct (Z.ltb_spec 0 (totalRows c)); [|lia].
      unfold Qdiv. ring. }
    unfold round1, Math_round.
    set (y := (percent (assignedCount c) (totalRows c) * 10 + (1 # 2))%Q).
    pose proof (Qfloor_le y) as Hlo.
    pose proof (Qlt_floor y) as Hhi.
    rewrite inject_Z_plus in Hhi. change (inject_Z 1) with 1%Q in Hhi.
    generalize dependent (inject_Z (Qfloor y)). intros K Hlo Hhi.
    unfold y in Hlo, Hhi. clear y.
    generalize dependent (percent (assignedCount c) (totalRows c)).
    intros p Hp Hlo Hhi. clearbody exact. unfold Qdiv.
    change (/ 2)%Q with (1 # 2)%Q.
    split; lra.
Qed.

(** *** The due-date column *)

(** C1 (amended). The scan of row 0 considers a header for the due date
    when its text contains "due" and "date" and the header is not taken as
    the action column at that step (it does not contain "action", or an
    earlier header already did). If exactly one header of the range is
    considered, its column becomes [dueDateCol]; if none is, [dueDateCol]
    stays [null]. *)
Theorem C1_due_date_column ws :
  (forall col,
     due_candidate ws col ->
     (forall col', due_candidate ws col' -> col' = col) ->
     snd (findColumns ws) = Some (encode_col col)) /\
  ((forall col, ~ due_candidate ws col) -> snd (findColumns ws) = None).
Proof.
  rewrite findColumns_eq. cbn [snd]. split.
  - intros col Hc Hu. apply elem_of_due_candidates_range in Hc.
    destruct (last _) as [c|] eqn:E.
    + apply last_Some_elem_of, elem_of_due_candidates_range, Hu in E.
      by subst.
    + apply last_None in E. rewrite E in Hc. by apply not_elem_of_nil in Hc.
  - intros H. destruct (last _) as [c|] eqn:E; [|done].
    apply last_Some_elem_of, elem_of_due_candidates_range in E.
    by apply H in E.
Qed.

(** *** Single rows *)

Lemma analyze_row_unassigned ws today a d acc row c :
  cell_at ws a row = Some c ->
  isAssigned (w_or_v (Some c)) = false ->
  analyze_row ws today a d acc row =
  mkCounters (totalRows acc + 1) (assignedCount acc) (overdueCount acc).
Proof. intros Hc Ha. unfold analyze_row. by rewrite Hc, Ha. Qed.

Lemma analyze_row_overdue ws t a d acc row c x :
  cell_at ws a row = Some c ->
  isAssigned (w_or_v (Some c)) = true ->
  d <> "" ->
  parseDate (w_or_v (cell_at ws d row)) = Some (ValidDate x) ->
  x < t ->
  analyze_row ws (ValidDate t) a (Some d) acc row =
  mkCounters (totalRows acc + 1) (assignedCount acc + 1) (overdueCount acc + 1).
Proof.
  intros Hc Ha Hd Hp Hx. unfold analyze_row. rewrite Hc, Ha, Hp.
  cbn [andb falsy_col date_lt]. destruct (String.eqb_spec d ""); [done|].
  by destruct (Z.ltb_spec x t); [|lia].
Qed.

Lemma analyze_row_on_time ws t a d acc row c x :
  cell_at ws a row = Some c ->
  isAssigned (w_or_v (Some c)) = true ->
  parseDate (w_or_v (cell_at ws d row)) = Some (ValidDate x) ->
  t <= x ->
  analyze_row ws (ValidDate t) a (Some d) acc row =
  mkCounters (totalRows acc + 1) (assignedCount acc + 1) (overdueCount acc).
Proof.
  intros Hc Ha Hp Hx. unfold analyze_row. rewrite Hc, Ha, Hp.
  cbn [andb falsy_col date_lt]. destruct (d =? "")%string; [done|].
  by destruct (Z.ltb_spec x t); [lia|].
Qed.

(** The row loop depends on a row only through the presence of its action
    cell and through [w || v] of its action and due-date cells. *)
Lemma analyze_row_ext ws ws' today a d acc row :
  (cell_at ws a row = None <-> cell_at ws' a row = None) ->
  w_or_v (cell_at ws a row) = w_or_v (cell_at ws' a row) ->
  (forall dueCol, d = Some dueCol ->
     w_or_v (cell_at ws dueCol row) = w_or_v (cell_at ws' dueCol row)) ->
  analyze_row ws today a d acc row = analyze_row ws' today a d acc row.
Proof.
  intros Hn Ha Hd. unfold analyze_row. rewrite Ha.
  assert ((match cell_at ws a row with None => true | Some _ => false end)
          = (match cell_at ws' a row with None => true | Some _ => false end))
    as ->.
  { destruct (cell_at ws a row), (cell_at ws' a row); try done.
    - discriminate (proj2 Hn eq_refl).
    - discriminate (proj1 Hn eq_refl). }
  destruct d as [dueCol|]; [|done].
  by rewrite (Hd dueCol).
Qed.

(** *** Scenario A *)

Lemma today_new_year_2024 :
  Z.abs (LocalTZA (MakeDay 2024 0 1 * msPerDay)) <= msPerDay ->
  exists t, getTodayInKolkata Samples.new_year_2024 = ValidDate t /\
            1577836800000 < t.
Proof.
  intros Hoff.
  change (MakeDay 2024 0 1 * msPerDay) with 1704067200000 in Hoff.
  unfold msPerDay in Hoff.
  exists (1704067200000 - LocalTZA 1704067200000). split; [|lia].
  change (getTodayInKolkata Samples.new_year_2024)
    with (TimeClip (inject_Z (1704067200000 - LocalTZA 1704067200000))).
  apply TimeClip_inject_Z. unfold maxTime. lia.
Qed.

(** C2. Scenario A: with the header row ["Action", "Due Date"], the data
    rows ["Yes", "2020-01-01"], ["No", "2099-01-01"], ["true", "2020-01-01"]
    and today being 2024-01-01 (local time, on a host whose offset from UTC
    is below a day), the analysis returns [total_rows = 3],
    [assigned_count = 2], [overdue_count = 2], [assigned_pct = 66.7] and
    [overdue_pct_of_assigned = 100.0], whether or not the cells carry
    formatted text. *)
Theorem C2_scenario_A :
  Z.abs (LocalTZA (MakeDay 2024 0 1 * msPerDay)) <= msPerDay ->
  scenario_A_outcome (analyzeExcel Samples.new_year_2024 Samples.scenario_A) /\
  scenario_A_outcome
    (analyzeExcel Samples.new_year_2024 Samples.scenario_A_raw).
Proof.
  intros (t & Ht & Hlt)%today_new_year_2024.
  assert (forall ws c1 c2 c3,
    findColumns ws = (Some "A", Some "B") ->
    data_rows ws = [1; 2; 3]%nat ->
    cell_at ws "A" 1 = Some c1 -> isAssigned (w_or_v (Some c1)) = true ->
    cell_at ws "A" 2 = Some c2 -> isAssigned (w_or_v (Some c2)) = false ->
    cell_at ws "A" 3 = Some c3 -> isAssigned (w_or_v (Some c3)) = true ->
    parseDate (w_or_v (cell_at ws "B" 1)) = Some (ValidDate 1577836800000) ->
    parseDate (w_or_v (cell_at ws "B" 3)) = Some (ValidDate 1577836800000) ->
    scenario_A_outcome (analyzeExcel Samples.new_year_2024 ws)) as Hrows.
  { intros ws c1 c2 c3 Hcols Hrows H1 A1 H2 A2 H3 A3 P1 P3.
    exists (result_of ws t "A" (Some "B")).
    split; [by apply analyzeExcel_success|].
    assert (analyze_rows ws (ValidDate t) "A" (Some "B") = mkCounters 3 2 2)
      as Hc.
    { unfold analyze_rows. rewrite Hrows. cbn [fold_left].
      rewrite (analyze_row_overdue ws t "A" "B" _ 1%nat c1 _ H1 A1) by done.
      rewrite (analyze_row_unassigned ws _ "A" _ _ 2%nat c2 H2 A2).
      rewrite (analyze_row_overdue ws t "A" "B" _ 3%nat c3 _ H3 A3) by done.
      reflexivity. }
    unfold result_of. rewrite Hc. cbn. repeat split; reflexivity. }
  split.
  - apply (Hrows Samples.scenario_A (Samples.text "Yes") (Samples.text "No")
             (Samples.text "true")); vm_compute; reflexivity.
  - apply (Hrows Samples.scenario_A_raw (Samples.raw (VString "Yes"))
             (Samples.raw (VString "No")) (Samples.raw (VString "true")));
      vm_compute; reflexivity.
Qed.

(** *** Formatted text before raw value *)

Lemma parseDate_string s :
  s <> "" ->
  parseDate (VString s) =
  match Date_parse s with
  | Some t =>
      match TimeClip (inject_Z t) with
      | ValidDate t' => Some (ValidDate t')
      | InvalidDate => None
      end
  | None => None
  end.
Proof.
  intros Hs. unfold parseDate. cbn [truthy new_Date].
  destruct (String.eqb_spec s ""); [done|]. cbn [negb].
  destruct (Date_parse s) as [t|]; [|done].
  by destruct (TimeClip (inject_Z t)).
Qed.

(** C10. The value a row hands to [isAssigned] and to [parseDate] is the
    cell's formatted text when it is present and non-empty and the raw
    value otherwise, and the row loop sees the two cells through that value
    only. Hence a due-date cell that holds a serial number and a formatted
    text is read by the string branch of [parseDate], whatever the serial,
    and the format decides: with today at 2023-03-10, the serial 45000
    shown as "2023-03-15" is not overdue, shown as "2023-03" it is. *)
Theorem C10_formatted_text_first :
  (forall c s, cell_w c = Some s -> s <> "" -> w_or_v (Some c) = VString s) /\
  (forall c, cell_w c = None \/ cell_w c = Some "" ->
             w_or_v (Some c) = cell_v c) /\
  (forall ws ws' today a d acc row,
     (cell_at ws a row = None <-> cell_at ws' a row = None) ->
     w_or_v (cell_at ws a row) = w_or_v (cell_at ws' a row) ->
     (forall dueCol, d = Some dueCol ->
        w_or_v (cell_at ws dueCol row) = w_or_v (cell_at ws' dueCol row)) ->
     analyze_row ws today a d acc row = analyze_row ws' today a d acc row) /\
  (forall n s, s <> "" ->
     parseDate (w_or_v (Some (Samples.serial n s))) =
     match Date_parse s with
     | Some t =>
         match TimeClip (inject_Z t) with
         | ValidDate t' => Some (ValidDate t')
         | InvalidDate => None
         end
     | None => None
     end) /\
  analyze_rows (Samples.due_shown_as "2023-03-15") Samples.march_10_2023
               "A" (Some "B") = mkCounters 1 1 0 /\
  analyze_rows (Samples.due_shown_as "2023-03") Samples.march_10_2023
               "A" (Some "B") = mkCounters 1 1 1.
Proof.
  assert (forall c s, cell_w c = Some s -> s <> "" ->
                      w_or_v (Some c) = VString s) as Hw.
  { intros c s Hc Hs. unfold w_or_v, JS.or, prop_w. rewrite Hc. cbn [truthy].
    by destruct (String.eqb_spec s ""). }
  split; [exact Hw|]. split.
  { intros c [Hc | Hc]; unfold w_or_v, JS.or, prop_w; by rewrite Hc. }
  split; [apply analyze_row_ext|]. split.
  { intros n s Hs. rewrite (Hw _ s) by done. by apply parseDate_string. }
  split; vm_compute; reflexivity.
Qed.

(** ** Further properties of the analysis *)

(** *** Which columns the scan returns *)

Lemma head_filter_seq (P : nat -> Prop) `{forall x, Decision (P x)} s n c :
  (s <= c < s + n)%nat -> P c ->
  (forall k, (s <= k < c)%nat -> ~ P k) ->
  head (filter P (seq s n)) = Some c.
Proof.
  revert s. induction n as [|n IH]; intros s Hr Hc Hk; [lia|].
  cbn [seq]. destruct (decide (c = s)) as [->|Hne].
  - by rewrite filter_cons_True.
  - rewrite filter_cons_False by (apply Hk; lia).
    apply IH; [lia | done | intros k ?; apply Hk; lia].
Qed.

(** X1. The action column is the leftmost header of the range that
    contains "action": later headers that also contain it are ignored. *)
Theorem X1_action_column_leftmost ws col :
  in_header_range ws col -> is_action_header ws col = true ->
  (forall k, (s_c (decode_ref ws) <= k < col)%nat ->
             is_action_header ws k = false) ->
  fst (findColumns ws) = Some (encode_col col).
Proof.
  intros Hr Hc Hk. rewrite findColumns_eq. cbn [fst]. unfold header_cols.
  rewrite (head_filter_seq _ _ _ col); [done | | done |].
  - unfold in_header_range in Hr. lia.
  - intros k Hlt. rewrite (Hk k Hlt). discriminate.
Qed.

Lemma last_due_candidates_max ws seen s n c :
  last (due_candidates ws seen (seq s n)) = Some c ->
  forall c', c' ∈ due_candidates ws seen (seq s n) -> (c' <= c)%nat.
Proof.
  revert s seen c. induction n as [|n IH]; intros s seen c.
  - cbn. discriminate.
  - cbn [seq due_candidates].
    destruct (is_action_header ws s && negb seen); [apply IH|].
    destruct (is_due_header ws s); [|apply IH].
    rewrite last_cons.
    destruct (last (due_candidates ws seen (seq (S s) n))) as [y|] eqn:E.
    + intros [= <-] c' [->|Hin]%elem_of_cons; [|by apply (IH _ _ _ E)].
      apply last_Some_elem_of, elem_of_due_candidates in E. lia.
    + apply last_None in E. rewrite E.
      intros [= <-] c' [->|Hin]%elem_of_cons; [lia|].
      by apply not_elem_of_nil in Hin.
Qed.

(** X2. When several headers are considered for the due date, the scan
    returns the rightmost of them: each one overwrites the previous. *)
Theorem X2_due_date_column_rightmost ws col :
  due_candidate ws col ->
  (forall col', due_candidate ws col' -> (col' <= col)%nat) ->
  snd (findColumns ws) = Some (encode_col col).
Proof.
  intros Hc Hmax. rewrite findColumns_eq. cbn [snd].
  apply elem_of_due_candidates_range in Hc.
  destruct (last _) as [c|] eqn:E.
  - pose proof (last_due_candidates_max _ _ _ _ _ E col Hc) as Hle.
    apply last_Some_elem_of, elem_of_due_candidates_range, Hmax in E.
    assert (c = col) as -> by lia. reflexivity.
  - apply last_None in E. rewrite E in Hc. by apply not_elem_of_nil in Hc.
Qed.

(** *** The counters as counts of rows *)

Lemma count_rows_cons p row rows :
  count_rows p (row :: rows) = Z.b2z (p row) + count_rows p rows.
Proof.
  unfold count_rows. cbn [List.filter]. destruct (p row); cbn [length Z.b2z]; lia.
Qed.

Lemma count_rows_le p q rows :
  (forall row, p row = true -> q row = true) ->
  count_rows p rows <= count_rows q rows.
Proof.
  intros Hpq. induction rows as [|row rows IH]; [done|].
  rewrite !count_rows_cons. specialize (Hpq row).
  destruct (p row), (q row); cbn [Z.b2z];
    first [lia | by specialize (Hpq eq_refl)].
Qed.

Lemma count_rows_ext p q rows :
  (forall row, p row = q row) -> count_rows p rows = count_rows q rows.
Proof.
  intros Hpq. induction rows as [|row rows IH]; [done|].
  by rewrite !count_rows_cons, Hpq, IH.
Qed.

Lemma count_rows_all rows : count_rows (fun _ => true) rows = Z.of_nat (length rows).
Proof.
  induction rows as [|row rows IH]; [done|].
  rewrite count_rows_cons, IH. cbn [length Z.b2z]. lia.
Qed.

Lemma row_assigned_has_cell ws a row :
  row_assigned ws a row = true -> has_action_cell ws a row = true.
Proof.
  unfold row_assigned, has_action_cell. by destruct (cell_at ws a row).
Qed.

Local Ltac count_step := cbn [andb orb negb Z.b2z]; f_equal; lia.

Lemma analyze_row_counts ws today a d acc row :
  analyze_row ws today a d acc row =
  mkCounters (totalRows acc + Z.b2z (row_counted ws a d row))
             (assignedCount acc + Z.b2z (row_assigned ws a row))
             (overdueCount acc + Z.b2z (row_overdue ws today a d row)).
Proof.
  unfold analyze_row, row_counted, row_overdue, row_assigned, due_before,
    has_action_cell.
  destruct acc as [t n o]. cbn [totalRows assignedCount overdueCount].
  destruct (cell_at ws a row) as [c|] eqn:Hc; cbn [andb orb].
  - destruct (isAssigned (w_or_v (Some c))); [|count_step].
    destruct d as [dueCol|]; [|count_step].
    destruct (falsy_col (Some dueCol)); [count_step|].
    destruct (parseDate _) as [dueDate|]; [|count_step].
    destruct (date_lt dueDate today); count_step.
  - change (isAssigned (w_or_v None)) with false.
    destruct (falsy_col d); count_step.
Qed.

Lemma analyze_rows_fold ws today a d rows acc :
  fold_left (analyze_row ws today a d) rows acc =
  mkCounters (totalRows acc + count_rows (row_counted ws a d) rows)
             (assignedCount acc + count_rows (row_assigned ws a) rows)
             (overdueCount acc + count_rows (row_overdue ws today a d) rows).
Proof.
  revert acc. induction rows as [|row rows IH]; intros acc.
  - destruct acc. unfold count_rows. cbn. f_equal; lia.
  - cbn [fold_left]. rewrite IH, analyze_row_counts, !count_rows_cons.
    cbn [totalRows assignedCount overdueCount]. f_equal; lia.
Qed.

Lemma analyze_rows_counts ws today a d :
  analyze_rows ws today a d =
  mkCounters (count_rows (row_counted ws a d) (data_rows ws))
             (count_rows (row_assigned ws a) (data_rows ws))
             (count_rows (row_overdue ws today a d) (data_rows ws)).
Proof. unfold analyze_rows. by rewrite analyze_rows_fold. Qed.

(** X3. The three counts of a successful analysis are counts of data
    rows [1 .. range.e.r]: the rows that have an action cell, or all of
    them when a due-date column was located; the rows whose action value
    is assigned; and the assigned rows whose due date parses to a date
    before today. *)
Theorem X3_counts_are_row_counts clock ws r :
  analyzeExcel clock ws = inr r ->
  exists a d,
    findColumns ws = (Some a, d) /\
    total_rows r = count_rows (row_counted ws a d) (data_rows ws) /\
    assigned_count r = count_rows (row_assigned ws a) (data_rows ws) /\
    overdue_count r =
      count_rows (row_overdue ws (getTodayInKolkata clock) a d) (data_rows ws).
Proof.
  intros (a & d & t & Hc & _ & Ht & ->)%analyzeExcel_inr.
  exists a, d. split; [done|]. unfold result_of.
  cbn [total_rows assigned_count overdue_count].
  by rewrite analyze_rows_counts, Ht.
Qed.

Lemma length_data_rows ws : length (data_rows ws) = e_r (decode_ref ws).
Proof. unfold data_rows. apply length_seq. Qed.

(** X4. Once a due-date column is located every row of the range below
    the header is counted, blank or not: [total_rows] is [range.e.r].
    Without one, only the rows that have an action cell are counted. *)
Theorem X4_total_rows clock ws r :
  analyzeExcel clock ws = inr r ->
  (snd (findColumns ws) <> None ->
   total_rows r = Z.of_nat (e_r (decode_ref ws))) /\
  (snd (findColumns ws) = None ->
   exists a, fst (findColumns ws) = Some a /\
     total_rows r = count_rows (has_action_cell ws a) (data_rows ws)).
Proof.
  intros (a & d & t & Hc & _ & _ & ->)%analyzeExcel_inr.
  unfold result_of. cbn [total_rows]. rewrite analyze_rows_counts.
  cbn [totalRows]. pose proof (findColumns_eq ws) as E.
  rewrite Hc in E. injection E as Ha Hd. rewrite Hc. cbn [fst snd]. split.
  - intros Hne. rewrite <- length_data_rows, <- count_rows_all.
    apply count_rows_ext. intros row. unfold row_counted.
    destruct (last _) as [c|]; [|done].
    change (encode_col <$> Some c) with (Some (encode_col c)) in Hd. subst d.
    rewrite falsy_col_encode. by destruct (has_action_cell ws a row).
  - intros ->. exists a. split; [done|].
    apply count_rows_ext. intros row. unfold row_counted. cbn.
    by destruct (has_action_cell ws a row).
Qed.

Lemma date_lt_mono due t1 t2 :
  t1 <= t2 -> date_lt due (ValidDate t1) = true ->
  date_lt due (ValidDate t2) = true.
Proof.
  intros Ht. destruct due as [x|]; cbn; [|done].
  intros ?%Z.ltb_lt. apply Z.ltb_lt. lia.
Qed.

(** X5. A later date for today never lowers the overdue count and
    changes nothing else: of two successful analyses of one worksheet, the
    one with the later today has the same [total_rows], [assigned_count]
    and [assigned_pct], and at least as many overdue rows. *)
Theorem X5_overdue_monotone clock1 clock2 ws r1 r2 t1 t2 :
  getTodayInKolkata clock1 = ValidDate t1 ->
  getTodayInKolkata clock2 = ValidDate t2 ->
  t1 <= t2 ->
  analyzeExcel clock1 ws = inr r1 ->
  analyzeExcel clock2 ws = inr r2 ->
  total_rows r1 = total_rows r2 /\
  assigned_count r1 = assigned_count r2 /\
  assigned_pct r1 = assigned_pct r2 /\
  columns_used r1 = columns_used r2 /\
  notes r1 = notes r2 /\
  overdue_count r1 <= overdue_count r2.
Proof.
  intros H1 H2 Hle (a & d & t & Hc & _ & Ht & ->)%analyzeExcel_inr
    (a' & d' & t' & Hc' & _ & Ht' & ->)%analyzeExcel_inr.
  rewrite Hc in Hc'. injection Hc' as <- <-.
  rewrite H1 in Ht. injection Ht as <-. rewrite H2 in Ht'. injection Ht' as <-.
  unfold result_of.
  cbn [total_rows assigned_count assigned_pct overdue_count columns_used notes].
  rewrite !analyze_rows_counts.
  cbn [totalRows assignedCount overdueCount]. repeat split.
  apply count_rows_le. intros row. unfold row_overdue, due_before.
  destruct (row_assigned ws a row); [|done]. cbn [andb].
  destruct d as [dueCol|]; [|done].
  destruct (negb (falsy_col (Some dueCol))); [|done]. cbn [andb].
  destruct (parseDate _) as [due|]; [|done]. by apply date_lt_mono.
Qed.

(** *** The two percentages *)

Lemma percent_range n d : 0 <= n <= d -> (0 <= percent n d <= 100)%Q.
Proof.
  intros [Hn Hd]. unfold percent. destruct (Z.ltb_spec 0 d) as [Hpos|Hpos].
  - assert (0 < inject_Z d)%Q as Hd'
      by (change 0%Q with (inject_Z 0); by rewrite <- Zlt_Qlt).
    assert (0 <= inject_Z n / inject_Z d)%Q as H0.
    { apply Qle_shift_div_l; [done|]. rewrite Qmult_0_l.
      change 0%Q with (inject_Z 0). by rewrite <- Zle_Qle. }
    assert (inject_Z n / inject_Z d <= 1)%Q as H1.
    { apply Qle_shift_div_r; [done|]. rewrite Qmult_1_l.
      by rewrite <- Zle_Qle. }
    generalize dependent (inject_Z n / inject_Z d)%Q. intros q H0 H1.
    split; lra.
  - split; [apply Qle_refl | discriminate].
Qed.

Lemma round1_range p : (0 <= p <= 100)%Q -> (0 <= round1 p <= 100)%Q.
Proof.
  intros [H0 H1]. unfold round1, Math_round.
  assert (0 <= Qfloor (p * 10 + (1 # 2)) <= 1000) as [Hlo Hhi].
  { split.
    - change 0 with (Qfloor 0). apply Qfloor_resp_le. lra.
    - change 1000 with (Qfloor (2001 # 2)). apply Qfloor_resp_le. lra. }
  rewrite Zle_Qle in Hlo, Hhi.
  generalize dependent (inject_Z (Qfloor (p * 10 + (1 # 2)))). intros K Hlo Hhi.
  change (inject_Z 0) with 0%Q in Hlo. change (inject_Z 1000) with 1000%Q in Hhi.
  unfold Qdiv. change (/ 10)%Q with (1 # 10)%Q. split; lra.
Qed.

(** X6. Both percentages of a successful analysis lie between 0 and 100. *)
Theorem X6_percentages_in_range clock ws r :
  analyzeExcel clock ws = inr r ->
  (0 <= assigned_pct r <= 100)%Q /\
  (0 <= overdue_pct_of_assigned r <= 100)%Q.
Proof.
  intros (a & d & t & _ & _ & _ & ->)%analyzeExcel_inr.
  destruct (analyze_rows_ordered ws (ValidDate t) a d) as (H1 & H2 & H3).
  unfold result_of. cbn [assigned_pct overdue_pct_of_assigned].
  split; apply round1_range, percent_range; lia.
Qed.

Lemma round1_percent_nearest n d :
  0 < d ->
  exists k : Z,
    (round1 (percent n d) == inject_Z k / 10)%Q /\
    (10 * (100 * inject_Z n / inject_Z d) - 1 / 2 <= inject_Z k)%Q /\
    (inject_Z k <= 10 * (100 * inject_Z n / inject_Z d) + 1 / 2)%Q.
Proof.
  intros Hd. exists (Math_round (percent n d * 10)). split; [reflexivity|].
  assert (percent n d == 100 * inject_Z n / inject_Z d)%Q as Hp.
  { unfold percent. destruct (Z.ltb_spec 0 d); [|lia]. unfold Qdiv. ring. }
  unfold round1, Math_round.
  pose proof (Qfloor_le (percent n d * 10 + (1 # 2))) as Hlo.
  pose proof (Qlt_floor (percent n d * 10 + (1 # 2))) as Hhi.
  rewrite inject_Z_plus in Hhi. change (inject_Z 1) with 1%Q in Hhi.
  generalize dependent (inject_Z (Qfloor (percent n d * 10 + (1 # 2)))).
  intros K Hlo Hhi.
  generalize dependent (percent n d). intros p Hp Hlo Hhi.
  generalize dependent (100 * inject_Z n / inject_Z d)%Q. intros e Hp.
  unfold Qdiv. change (/ 2)%Q with (1 # 2)%Q.
  split; lra.
Qed.

(** X7. [overdue_pct_of_assigned] is 0 when no row is assigned and when no
    row is overdue; when some row is assigned it is
    [100 * overdue_count / assigned_count] rounded to one decimal: the
    tenth [k / 10] whose whole number [k], the value of [Math.round], is
    at most one half away from ten times the exact percentage (at a tie
    either neighbour qualifies). As for [assigned_pct], the rounding part
    is stated for at most 1 048 576 assigned rows, where the double
    arithmetic of lines 131 and 140 errs by far less than the distance of
    the exact value to a tie. *)
Theorem X7_overdue_pct clock ws r :
  analyzeExcel clock ws = inr r ->
  (assigned_count r = 0 -> (overdue_pct_of_assigned r == 0)%Q) /\
  (overdue_count r = 0 -> (overdue_pct_of_assigned r == 0)%Q) /\
  (0 < assigned_count r -> assigned_count r <= 1048576 ->
   let exact :=
     (100 * inject_Z (overdue_count r) / inject_Z (assigned_count r))%Q in
   exists k : Z,
     (overdue_pct_of_assigned r == inject_Z k / 10)%Q /\
     (10 * exact - 1 / 2 <= inject_Z k)%Q /\
     (inject_Z k <= 10 * exact + 1 / 2)%Q).
Proof.
  intros (a & d & t & _ & _ & _ & ->)%analyzeExcel_inr.
  unfold result_of. cbn [assigned_count overdue_count overdue_pct_of_assigned].
  split; [|split].
  - intros H. unfold percent. rewrite H. reflexivity.
  - intros H. rewrite H. rewrite (round1_comp _ _ (percent_zero_num _)).
    reflexivity.
  - intros H _. cbn zeta. by apply round1_percent_nearest.
Qed.

(** *** Column labels and the sentinel *)

Lemma is_upper_letter k :
  (k < 26)%nat -> is_upper (ascii_of_nat (k + 65)) = true.
Proof.
  intros Hk. unfold is_upper. rewrite nat_ascii_embedding by lia.
  apply andb_true_intro. split; apply Nat.leb_le; lia.
Qed.

Lemma encode_col_loop_upper fuel col s :
  all_upper s = true -> all_upper (encode_col_loop fuel col s) = true.
Proof.
  revert col s.
  induction fuel as [|fuel IH]; intros col s Hs; cbn [encode_col_loop]; [done|].
  destruct (col =? 0)%nat; [done|]. apply IH. cbn [all_upper].
  rewrite is_upper_letter by (apply Nat.mod_upper_bound; lia). done.
Qed.

Lemma encode_col_upper col : all_upper (encode_col col) = true.
Proof. unfold encode_col. by apply encode_col_loop_upper. Qed.

Lemma encode_col_not_sentinel col : encode_col col <> not_found.
Proof.
  intros E. pose proof (encode_col_upper col) as H. rewrite E in H.
  discriminate H.
Qed.

(** X8. In a successful analysis the missing-column note, the sentinel and
    the scan agree: if the scan found no due-date column, [notes] is the
    single note and [columns_used.due_date] is "Not found"; if it found
    one, [notes] is empty and [columns_used.due_date] is that label, which
    is made of capital letters only and so is not the sentinel. The action
    label is made of capital letters too. *)
Theorem X8_notes_and_sentinel clock ws r :
  analyzeExcel clock ws = inr r ->
  fst (findColumns ws) = Some (action (columns_used r)) /\
  all_upper (action (columns_used r)) = true /\
  (snd (findColumns ws) = None ->
   notes r = [msg_no_due_date] /\ due_date (columns_used r) = not_found) /\
  (forall d, snd (findColumns ws) = Some d ->
   notes r = [] /\ due_date (columns_used r) = d /\
   all_upper d = true /\ d <> not_found).
Proof.
  intros (a & d & t & Hc & _ & _ & ->)%analyzeExcel_inr.
  pose proof (findColumns_eq ws) as E. rewrite Hc in E. injection E as Ha Hd.
  rewrite Hc. unfold result_of. cbn [fst snd columns_used action due_date notes].
  split; [done|]. split.
  { destruct (head _) as [c|]; [|done]. injection Ha as ->.
    apply encode_col_upper. }
  split.
  - by intros ->.
  - intros d' ->. destruct (last _) as [c|]; [|done].
    change (encode_col <$> Some c) with (Some (encode_col c)) in Hd.
    injection Hd as ->. rewrite falsy_col_encode.
    destruct (String.eqb_spec (encode_col c) "").
    { by destruct (encode_col_nonempty c). }
    repeat split; [apply encode_col_upper | apply encode_col_not_sentinel].
Qed.

(** *** The analysis date *)

Lemma TimeClip_inject_Z_inv z t : TimeClip (inject_Z z) = ValidDate t -> t = z.
Proof.
  unfold TimeClip. destruct (Qle_bool _ _); [|done].
  rewrite truncate_inject_Z. by intros [= ->].
Qed.

Lemma getTodayInKolkata_valid clock t :
  getTodayInKolkata clock = ValidDate t ->
  t = clock_midnight clock - LocalTZA (clock_midnight clock).
Proof. apply TimeClip_inject_Z_inv. Qed.

Lemma iso_date_same_day t t' :
  t / msPerDay = t' / msPerDay -> iso_date_of_time t = iso_date_of_time t'.
Proof. unfold iso_date_of_time. by intros ->. Qed.

(** X9. [today_iso] is the UTC date of local midnight, not the date the
    clock shows: on a host ahead of UTC (by at most a day) it is the ISO
    date of the day before, and on a host at or behind UTC (by less than a
    day) it is the ISO date of the day itself. *)
Theorem X9_today_iso clock ws r :
  analyzeExcel clock ws = inr r ->
  let midnight := clock_midnight clock in
  (0 < LocalTZA midnight <= msPerDay ->
   today_iso r = iso_date_of_time (midnight - msPerDay)) /\
  (- msPerDay < LocalTZA midnight <= 0 ->
   today_iso r = iso_date_of_time midnight).
Proof.
  intros (a & d & t & _ & _ & Ht & ->)%analyzeExcel_inr.
  apply getTodayInKolkata_valid in Ht. unfold result_of. cbn [today_iso].
  unfold clock_midnight in *.
  set (D := MakeDay _ _ _) in *. generalize dependent (LocalTZA (D * msPerDay)).
  intros off ->. cbn zeta. unfold msPerDay. split; intros Hoff.
  - apply iso_date_same_day. unfold msPerDay.
    replace (D * 86400000 - 86400000) with ((D - 1) * 86400000) by lia.
    rewrite Z.div_mul by lia.
    symmetry. apply (Z.div_unique _ _ _ (86400000 - off)); lia.
  - apply iso_date_same_day. unfold msPerDay.
    rewrite Z.div_mul by lia.
    symmetry. apply (Z.div_unique _ _ _ (- off)); lia.
Qed.

(** *** The classifier again *)

(** X10. Only the negative side of [isAssigned] matters: a value is not
    assigned exactly when it is blank or its lower-cased, trimmed text is
    one of "no", "false", "unassigned", "0" or empty. The list of positive
    words never changes the answer. *)
Theorem X10_isAssigned_negative v :
  isAssigned v =
  negb (is_blank v) && negb (array_includes negative_tokens (normalized v)).
Proof.
  assert (forall str,
    array_includes positive_tokens str
    || (negb (str =? "no")%string && negb (str =? "false")%string
        && negb (str =? "unassigned")%string && negb (str =? "0")%string
        && negb (str =? "")%string)
    = negb (array_includes negative_tokens str)) as Hrule.
  { intros str. destruct (array_includes positive_tokens str) eqn:E.
    - unfold array_includes, positive_tokens in E. cbn [existsb] in E.
      repeat (apply orb_prop in E as [E|E]); try discriminate E;
        apply String.eqb_eq in E; subst str; reflexivity.
    - unfold array_includes, negative_tokens. cbn [existsb orb].
      destruct (str =? "no")%string, (str =? "false")%string,
        (str =? "unassigned")%string, (str =? "0")%string,
        (str =? "")%string; reflexivity. }
  unfold isAssigned, normalized.
  destruct v as [| |b|n|s]; cbn [is_blank negb andb]; try done;
    try apply Hrule.
  destruct s; [done|]. apply Hrule.
Qed.

(** *** Dates written as text *)

(** X11. A due date written in the ISO form is read as midnight UTC,
    while today is midnight local time. So an assigned row whose due date
    is today's date is counted overdue exactly when the host is behind
    UTC. *)
Theorem X11_due_today clock ws a dueCol row s t :
  getTodayInKolkata clock = ValidDate t ->
  Z.abs (clock_midnight clock) <= maxTime ->
  row_assigned ws a row = true ->
  dueCol <> "" ->
  w_or_v (cell_at ws dueCol row) = VString s ->
  s <> "" ->
  Date_parse s = Some (clock_midnight clock) ->
  row_overdue ws (getTodayInKolkata clock) a (Some dueCol) row
  = (LocalTZA (clock_midnight clock) <? 0).
Proof.
  intros Ht Hr Ha Hd Hv Hs Hp. unfold row_overdue, due_before.
  rewrite Ha, Hv, (parseDate_string s Hs), Hp, (TimeClip_inject_Z _ Hr), Ht.
  apply getTodayInKolkata_valid in Ht. subst t.
  cbn [falsy_col andb date_lt]. destruct (String.eqb_spec dueCol ""); [done|].
  cbn [negb andb].
  destruct (Z.ltb_spec (clock_midnight clock)
              (clock_midnight clock - LocalTZA (clock_midnight clock))),
    (Z.ltb_spec (LocalTZA (clock_midnight clock)) 0); lia || reflexivity.
Qed.

(** *** Sheets without data rows *)

(** X12. A worksheet whose range ends at the header row (or that has no
    range at all) is analysed to zeros: no rows, both percentages 0, and
    the summary line of an empty sheet. *)
Theorem X12_no_data_rows clock ws r :
  analyzeExcel clock ws = inr r ->
  e_r (decode_ref ws) = 0%nat ->
  total_rows r = 0 /\ assigned_count r = 0 /\ overdue_count r = 0 /\
  (assigned_pct r == 0)%Q /\ (overdue_pct_of_assigned r == 0)%Q /\
  summary r = "Total: 0 | Assigned: 0 (0%) | Overdue: 0 (0%)".
Proof.
  intros (a & d & t & _ & _ & _ & ->)%analyzeExcel_inr He.
  assert (analyze_rows ws (ValidDate t) a d = mkCounters 0 0 0) as Hc.
  { unfold analyze_rows, data_rows. by rewrite He. }
  unfold result_of. rewrite Hc. repeat split; reflexivity.
Qed.

(** *** The three outcomes *)

Lemma findColumns_action_spec ws :
  match fst (findColumns ws) with
  | Some a =>
      a <> "" /\
      exists col, in_header_range ws col /\ is_action_header ws col = true
  | None =>
      forall col, in_header_range ws col -> is_action_header ws col = false
  end.
Proof.
  rewrite findColumns_eq. cbn [fst].
  destruct (head _) as [c|] eqn:E.
  - cbn. split; [apply encode_col_nonempty|]. exists c.
    apply head_Some_elem_of, list_elem_of_filter in E as [E1 E2].
    by apply elem_of_header_cols in E2.
  - intros col Hr. apply head_None in E.
    destruct (is_action_header ws col) eqn:Hc; [|done].
    assert (col ∈ filter (fun c => is_action_header ws c = true)
                         (header_cols ws)) as Hin
      by (apply list_elem_of_filter; split; [done|by apply elem_of_header_cols]).
    rewrite E in Hin. by apply not_elem_of_nil in Hin.
Qed.

(** X13. The analysis has three outcomes and the worksheet and the clock
    decide which: the missing-action [Error] exactly when no header of the
    range contains "action" (whatever the clock shows), the RangeError when
    there is such a header and today is not a valid date, and a result
    when there is such a header and today is valid. *)
Theorem X13_outcomes clock ws :
  match analyzeExcel clock ws with
  | inl (Error message) =>
      message = msg_no_action /\
      forall col, in_header_range ws col -> is_action_header ws col = false
  | inl RangeError_invalid_time =>
      (exists col, in_header_range ws col /\ is_action_header ws col = true) /\
      getTodayInKolkata clock = InvalidDate
  | inr r =>
      (exists col, in_header_range ws col /\ is_action_header ws col = true) /\
      exists t, getTodayInKolkata clock = ValidDate t
  end.
Proof.
  pose proof (findColumns_action_spec ws) as H. unfold analyzeExcel.
  destruct (findColumns ws) as [[a|] d]; cbn [fst] in H; [|done].
  destruct H as [Ha Hcol]. destruct (String.eqb_spec a ""); [done|].
  destruct (getTodayInKolkata clock) as [t|]; [|done].
  split; [done|]. by exists t.
Qed.

(** *** What the analysis reads *)

Lemma fold_left_ext_in {A B : Type} (f g : A -> B -> A) (l : list B) (a : A) :
  (forall x b, b ∈ l -> f x b = g x b) -> fold_left f l a = fold_left g l a.
Proof.
  revert a. induction l as [|b l IH]; intros a H; [done|].
  cbn [fold_left]. rewrite (H a b) by (by left).
  apply IH. intros x b' Hb. apply H. by right.
Qed.

(** X14. The analysis reads the range, the cells of row 0 within it and,
    below, the cells of the action column and of the due-date column only:
    two worksheets that agree on these are analysed alike, whatever their
    other columns hold. *)
Theorem X14_reads_located_columns_only clock ws ws' :
  decode_ref ws = decode_ref ws' ->
  (forall col, in_header_range ws col ->
     ws_cells ws !! encode_cell 0 col = ws_cells ws' !! encode_cell 0 col) ->
  (forall a row, fst (findColumns ws) = Some a -> row ∈ data_rows ws ->
     cell_at ws a row = cell_at ws' a row) ->
  (forall d row, snd (findColumns ws) = Some d -> row ∈ data_rows ws ->
     cell_at ws d row = cell_at ws' d row) ->
  analyzeExcel clock ws = analyzeExcel clock ws'.
Proof.
  intros Href Hhead Hact Hdue.
  assert (findColumns ws' = findColumns ws) as Hcols.
  { unfold findColumns, header_cols. rewrite <- Href. symmetry.
    apply fold_left_ext_in. intros acc col Hin.
    apply (elem_of_header_cols ws) in Hin.
    unfold findColumns_step. by rewrite (Hhead col Hin). }
  assert (data_rows ws' = data_rows ws) as Hrows
    by (unfold data_rows; by rewrite Href).
  unfold analyzeExcel. rewrite Hcols.
  destruct (findColumns ws) as [[a|] d]; [|done]. cbn [fst snd] in Hact, Hdue.
  assert (forall today, analyze_rows ws' today a d = analyze_rows ws today a d)
    as ->; [|done].
  intros today. unfold analyze_rows. rewrite Hrows. symmetry.
  apply fold_left_ext_in. intros acc row Hin. unfold analyze_row.
  rewrite (Hact a row eq_refl Hin).
  destruct d as [dueCol|]; [|done]. by rewrite (Hdue dueCol row eq_refl Hin).
Qed.

(** *** Bounds and distinct columns *)

Lemma count_rows_le_length p rows : count_rows p rows <= Z.of_nat (length rows).
Proof.
  rewrite <- count_rows_all. by apply count_rows_le.
Qed.

(** X18. [total_rows] is never negative and never exceeds the number of
    rows below the header in the range, [range.e.r]. *)
Theorem X18_total_rows_bound clock ws r :
  analyzeExcel clock ws = inr r ->
  0 <= total_rows r <= Z.of_nat (e_r (decode_ref ws)).
Proof.
  intros (a & d & t & _ & _ & _ & ->)%analyzeExcel_inr.
  unfold result_of. cbn [total_rows]. rewrite analyze_rows_counts.
  cbn [totalRows]. rewrite <- length_data_rows. split.
  - unfold count_rows. lia.
  - apply count_rows_le_length.
Qed.

Lemma decode_col_loop_append d pre s :
  decode_col_loop d (pre +:+ s) = decode_col_loop (decode_col_loop d pre) s.
Proof.
  revert d. induction pre as [|ch pre IH]; intros d; [done|]. apply IH.
Qed.

Lemma append_assoc_char pre ch s :
  (pre +:+ String ch "") +:+ s = pre +:+ String ch s.
Proof.
  induction pre as [|c pre IH]; [done|].
  change (String c ((pre +:+ String ch "") +:+ s)
          = String c (pre +:+ String ch s)).
  by rewrite IH.
Qed.

Lemma append_empty_r s : s +:+ "" = s.
Proof.
  induction s as [|c s IH]; [done|].
  change (String c (s +:+ "") = String c s). by rewrite IH.
Qed.

(** The label the loop builds in front of [s] decodes to [col]. *)
Lemma encode_col_loop_decode fuel col s :
  (col <= fuel)%nat ->
  exists pre, encode_col_loop fuel col s = pre +:+ s /\
              decode_col_loop 0 pre = col.
Proof.
  revert col s. induction fuel as [|fuel IH]; intros col s Hf.
  - exists "". assert (col = 0%nat) as -> by lia. done.
  - cbn [encode_col_loop]. destruct (Nat.eqb_spec col 0) as [->|Hne].
    + by exists "".
    + assert ((col - 1) / 26 <= col - 1)%nat
        by (apply Nat.Div0.div_le_upper_bound; lia).
      destruct (IH ((col - 1) / 26)%nat
                  (String (ascii_of_nat ((col - 1) mod 26 + 65)) s))
        as (pre & Hpre & Hval); [lia|].
      exists (pre +:+ String (ascii_of_nat ((col - 1) mod 26 + 65)) "").
      split; [by rewrite append_assoc_char|].
      rewrite decode_col_loop_append, Hval. cbn [decode_col_loop].
      pose proof (Nat.mod_upper_bound (col - 1) 26 ltac:(lia)).
      rewrite nat_ascii_embedding by lia.
      pose proof (Nat.div_mod_eq (col - 1) 26). lia.
Qed.

(** Decoding a column label gives the column back. *)
Lemma decode_encode_col col : decode_col (encode_col col) = col.
Proof.
  unfold decode_col, encode_col.
  destruct (encode_col_loop_decode (S col) (S col) "") as (pre & -> & Hval);
    [lia|].
  rewrite append_empty_r, Hval. lia.
Qed.

Lemma encode_col_inj c1 c2 : encode_col c1 = encode_col c2 -> c1 = c2.
Proof.
  intros E. by rewrite <- (decode_encode_col c1), E, decode_encode_col.
Qed.

Lemma head_filter_seq_min (P : nat -> Prop) `{forall x, Decision (P x)} s n c :
  head (filter P (seq s n)) = Some c ->
  P c /\ forall k, (s <= k < c)%nat -> ~ P k.
Proof.
  revert s. induction n as [|n IH]; intros s; [done|]. cbn [seq].
  destruct (decide (P s)) as [Hs|Hs].
  - rewrite filter_cons_True by done. intros [= <-]. split; [done|]. lia.
  - rewrite filter_cons_False by done. intros [Hc Hk]%IH. split; [done|].
    intros k Hr. destruct (decide (k = s)) as [->|]; [done|].
    apply Hk. lia.
Qed.

(** X19. The action column and the due-date column are never the same
    column: their labels differ, and in a result [columns_used.action]
    and [columns_used.due_date] are different strings. *)
Theorem X19_distinct_columns clock ws r :
  analyzeExcel clock ws = inr r ->
  action (columns_used r) <> due_date (columns_used r) /\
  forall d, snd (findColumns ws) = Some d -> fst (findColumns ws) <> Some d.
Proof.
  intros (a & d & t & Hc & _ & _ & ->)%analyzeExcel_inr.
  assert (forall d', d = Some d' -> a <> d') as Hne.
  { intros d' -> ->. pose proof (findColumns_eq ws) as E. rewrite Hc in E.
    injection E as Ha Hd.
    destruct (head _) as [c1|] eqn:E1; [|done].
    destruct (last _) as [c2|] eqn:E2; [|done].
    change (encode_col <$> Some c1) with (Some (encode_col c1)) in Ha.
    change (encode_col <$> Some c2) with (Some (encode_col c2)) in Hd.
    injection Ha as Ha. injection Hd as Hd.
    assert (c1 = c2) as -> by (apply encode_col_inj; congruence).
    apply head_filter_seq_min in E1 as [Hact Hmin].
    apply last_Some_elem_of, elem_of_due_candidates_range in E2
      as (_ & _ & Hk).
    destruct (Hk Hact) as (k & Hr & Hka). by apply (Hmin k). }
  assert (a <> not_found) as Hs.
  { pose proof (findColumns_eq ws) as E. rewrite Hc in E.
    injection E as Ha _. destruct (head _) as [c1|]; [|done].
    change (encode_col <$> Some c1) with (Some (encode_col c1)) in Ha.
    injection Ha as ->. apply encode_col_not_sentinel. }
  rewrite Hc. unfold result_of. cbn [columns_used action due_date fst snd].
  split.
  - destruct d as [d'|]; [|done].
    destruct (String.eqb_spec d' ""); [done | by apply Hne].
  - intros d' -> [= ->]. by apply (Hne d').
Qed.

(** *** The event handlers *)

Lemma substring_whole s : substring 0 (String.length s) s = s.
Proof. induction s as [|c s IH]; [done|]. cbn. by rewrite IH. Qed.

Lemma substring_tail s k :
  (k <= String.length s)%nat ->
  exists stem, s = stem +:+ substring k (String.length s - k) s.
Proof.
  revert k. induction s as [|c s IH]; intros k Hk.
  - exists "". cbn in Hk. assert (k = 0%nat) as -> by lia. done.
  - destruct k as [|k].
    + exists "". rewrite Nat.sub_0_r. by rewrite substring_whole.
    + cbn in Hk. destruct (IH k) as [stem Hstem]; [lia|].
      exists (String c stem).
      change (String c s
              = String c (stem +:+ substring k (String.length s - k) s)).
      by rewrite <- Hstem.
Qed.

Lemma substring_append stem suffix :
  substring (String.length stem) (String.length suffix) (stem +:+ suffix)
  = suffix.
Proof.
  induction stem as [|c stem IH]; [apply substring_whole | exact IH].
Qed.

Lemma length_append_string stem suffix :
  String.length (stem +:+ suffix)
  = (String.length stem + String.length suffix)%nat.
Proof.
  induction stem as [|c stem IH]; [done|].
  change (S (String.length (stem +:+ suffix))
          = S (String.length stem + String.length suffix)).
  by rewrite IH.
Qed.

(** [endsWith] is true exactly on the strings that end with the suffix. *)
Lemma endsWith_iff s suffix :
  endsWith s suffix = true <-> exists stem, s = stem +:+ suffix.
Proof.
  unfold endsWith. split.
  - intros [Hle Heq]%andb_prop. apply Nat.leb_le in Hle.
    apply String.eqb_eq in Heq.
    destruct (substring_tail s (String.length s - String.length suffix))
      as [stem Hstem]; [lia|].
    exists stem.
    replace (String.length s - (String.length s - String.length suffix))%nat
      with (String.length suffix) in Hstem by lia.
    by rewrite Heq in Hstem.
  - intros [stem ->]. rewrite length_append_string.
    apply andb_true_intro. split; [apply Nat.leb_le; lia|].
    replace (String.length stem + String.length suffix
             - String.length suffix)%nat with (String.length stem) by lia.
    rewrite substring_append. apply String.eqb_refl.
Qed.

Lemma is_excel_name_iff name : is_excel_name name = true <-> excel_name name.
Proof.
  unfold is_excel_name, excel_name. rewrite orb_true_iff, !endsWith_iff.
  split.
  - intros [[stem ->] | [stem ->]]; exists stem; auto.
  - intros (stem & [-> | ->]); [left | right]; by exists stem.
Qed.

Lemma find_first {A : Type} (p : A -> bool) (l : list A) (x : A) :
  List.find p l = Some x ->
  exists before after,
    l = (before ++ x :: after)%list /\ p x = true /\
    forall y, y ∈ before -> p y = false.
Proof.
  induction l as [|y l IH]; [done|]. cbn [List.find].
  destruct (p y) eqn:Hy.
  - intros [= ->]. exists [], l. split; [done|]. split; [done|].
    by intros z ?%not_elem_of_nil.
  - intros (before & after & -> & Hx & Hb)%IH.
    exists (y :: before), after. split; [done|]. split; [done|].
    intros z [->|Hz]%elem_of_cons; [done | by apply Hb].
Qed.

Lemma handleDrag_fields type st :
  isAnalyzing (handleDrag type st) = isAnalyzing st /\
  result (handleDrag type st) = result st /\
  error (handleDrag type st) = error st /\
  dragActive (handleDrag type st) =
    if is_drag_type type then negb (type =? "dragleave")%string
    else dragActive st.
Proof.
  unfold handleDrag, is_drag_type.
  destruct (String.eqb_spec type "dragenter") as [->|]; [done|].
  destruct (String.eqb_spec type "dragover") as [->|]; [done|].
  by destruct (type =? "dragleave")%string.
Qed.

(** X20. After any sequence of drag events the drop zone is highlighted
    according to the last event among dragenter, dragover and dragleave
    (on for the first two, off for the third), events of other types are
    ignored, and the rest of the state is untouched. *)
Theorem X20_handleDrag_last_event types st :
  let st' := fold_left (fun s type => handleDrag type s) types st in
  isAnalyzing st' = isAnalyzing st /\ result st' = result st /\
  error st' = error st /\
  dragActive st' =
    match last (List.filter is_drag_type types) with
    | Some type => negb (type =? "dragleave")%string
    | None => dragActive st
    end.
Proof.
  cbn zeta. revert st. induction types as [|type types IH]; intros st; [done|].
  cbn [fold_left List.filter].
  destruct (IH (handleDrag type st)) as (H1 & H2 & H3 & H4).
  destruct (handleDrag_fields type st) as (F1 & F2 & F3 & F4).
  rewrite H1, H2, H3, H4, F1, F2, F3, F4. repeat split.
  destruct (is_drag_type type); [|done].
  rewrite last_cons. by destruct (last _).
Qed.

Section ComponentProperties.

Context {File : Type}.
Variable file_name : File -> string.
Variable read_sheet : File -> thrown + worksheet.
Variable RangeError_message : string.

(** X15. Dropping files always ends the drag and touches nothing else of
    the state. The file handed to the analysis is the first of the dropped
    files whose name ends in ".xlsx" or ".xls" (lower case); when no
    dropped file has such a name, nothing is analysed and the "Invalid File
    Type" toast is shown. The file input has no such test: its first file
    is analysed whatever its name. *)
Theorem X15_handleDrop_picks_first_excel files st :
  fst (handleDrop file_name files st)
  = mkComponent false (isAnalyzing st) (result st) (error st) /\
  match snd (handleDrop file_name files st) with
  | Analyze f =>
      excel_name (file_name f) /\
      exists before after,
        files = (before ++ f :: after)%list /\
        forall g, g ∈ before -> ~ excel_name (file_name g)
  | ShowToast t =>
      t = mkToast "Invalid File Type"
            "Please upload an Excel file (.xlsx or .xls)" true /\
      forall g, g ∈ files -> ~ excel_name (file_name g)
  | Nothing => False
  end /\
  forall (f : File) (rest : list File),
    handleFileInput (Some (f :: rest)) = Analyze f.
Proof.
  unfold handleDrop.
  destruct (List.find _ files) as [f|] eqn:E; cbn [fst snd].
  - split; [done|]. split; [|done].
    apply find_first in E as (before & after & -> & Hf & Hb).
    split; [by apply is_excel_name_iff|].
    exists before, after. split; [done|].
    intros g Hg Hn%is_excel_name_iff. rewrite (Hb g Hg) in Hn. discriminate.
  - split; [done|]. split; [|done]. split; [done|].
    intros g Hg%list_elem_of_In Hn%is_excel_name_iff.
    by rewrite (find_none _ _ E g Hg) in Hn.
Qed.

Local Abbreviation step_state := (after_step read_sheet RangeError_message).
Local Abbreviation stored_result :=
  (step_result read_sheet RangeError_message).
Local Abbreviation stored_error := (step_error read_sheet RangeError_message).

Lemma after_step_dragActive steps st :
  dragActive (fold_left step_state steps st) = dragActive st.
Proof.
  revert st. induction steps as [|step steps IH]; intros st; [done|].
  cbn [fold_left]. rewrite IH. destruct step as [|clock file]; [done|].
  unfold after_step, analyzeExcel_resume.
  by destruct (analysis_outcome _ _ _ _).
Qed.

(** Resume steps only: each overwrites its own field and clears
    [isAnalyzing]. *)
Lemma resume_steps steps st :
  Forall (fun step => step <> Begin) steps ->
  isAnalyzing (fold_left step_state steps st)
  = match steps with [] => isAnalyzing st | _ => false end /\
  result (fold_left step_state steps st)
  = match last (omap stored_result steps) with
    | Some r => Some r
    | None => result st
    end /\
  error (fold_left step_state steps st)
  = match last (omap stored_error steps) with
    | Some m => Some m
    | None => error st
    end.
Proof.
  intros Hsteps. revert st.
  induction Hsteps as [|step steps Hstep Hsteps IH]; intros st; [done|].
  destruct step as [|clock file]; [done|].
  cbn [fold_left]. destruct (IH (step_state st (Resume clock file)))
    as (H1 & H2 & H3).
  rewrite H1, H2, H3.
  change (omap stored_result (Resume clock file :: steps))
    with (match stored_result (Resume clock file) with
          | Some r => r :: omap stored_result steps
          | None => omap stored_result steps
          end).
  change (omap stored_error (Resume clock file :: steps))
    with (match stored_error (Resume clock file) with
          | Some m => m :: omap stored_error steps
          | None => omap stored_error steps
          end).
  clear IH H1 H2 H3.
  unfold after_step, analyzeExcel_resume, step_result, step_error.
  destruct (analysis_outcome _ _ _ _) as [m|r];
    cbn [fst isAnalyzing result error].
  - split; [destruct steps; reflexivity|]. split; [reflexivity|].
    rewrite last_cons. destruct (last _); reflexivity.
  - split; [destruct steps; reflexivity|]. split; [|reflexivity].
    rewrite last_cons. destruct (last _); reflexivity.
Qed.

(** X16. Runs of the callback may overlap. After any sequence of their
    steps that ends with a first step followed by second steps only, the
    drag state is as at the start; [isAnalyzing] is true only if no second
    step has followed; [result] is what the last second step that
    succeeded has stored, [null] if none did; and [error] is the message
    of the last one that failed, [null] if none did. So two overlapping
    runs, one ending well and one failing, leave both set. *)
Theorem X16_runs_interleaved before after st :
  Forall (fun step => step <> Begin) after ->
  let st' := fold_left (after_step read_sheet RangeError_message)
               (before ++ Begin :: after) st in
  dragActive st' = dragActive st /\
  isAnalyzing st' = match after with [] => true | _ => false end /\
  result st'
  = last (omap (step_result read_sheet RangeError_message) after) /\
  error st'
  = last (omap (step_error read_sheet RangeError_message) after).
Proof.
  intros Hafter. cbn zeta. split; [apply after_step_dragActive|].
  rewrite fold_left_app. cbn [fold_left after_step].
  destruct (resume_steps after
              (analyzeExcel_begin (fold_left step_state before st)) Hafter)
    as (H1 & H2 & H3).
  rewrite H1, H2, H3. clear H1 H2 H3.
  cbn [analyzeExcel_begin isAnalyzing result error].
  split; [reflexivity|]. split.
  - destruct (last (omap stored_result after)); reflexivity.
  - destruct (last (omap stored_error after)); reflexivity.
Qed.

(** X17. When the second step of a run finds a first sheet without a
    header containing "action", it stores the missing-action message as
    the error, clears [isAnalyzing], shows one destructive toast with that
    message, and leaves [result] as it finds it. *)
Theorem X17_missing_action_shown clock file st ws :
  read_sheet file = inr ws ->
  (forall col, in_header_range ws col -> is_action_header ws col = false) ->
  analyzeExcel_resume read_sheet RangeError_message clock file st
  = (mkComponent (dragActive st) false (result st) (Some msg_no_action),
     [mkToast "Analysis Failed" msg_no_action true]).
Proof.
  intros Hread Hcols. unfold analyzeExcel_resume, analysis_outcome.
  rewrite Hread.
  by rewrite (analyzeExcel_no_action clock ws (findColumns_no_action ws Hcols)).
Qed.

End ComponentProperties.

End Analyzer.

(** ** The properties on the sample host *)

Import JS XLSX Samples.

Local Abbreviation host_findColumns := (findColumns Host.Number_toString).
Local Abbreviation host_parseDate :=
  (parseDate Host.Date_parse_impl Host.LocalTZA).
Local Abbreviation host_analyze :=
  (analyzeExcel Host.Number_toString Host.Date_parse_impl Host.LocalTZA).
Local Abbreviation host_analyze_row :=
  (analyze_row Host.Number_toString Host.Date_parse_impl Host.LocalTZA).

(** C1 fails as stated. With the headers "Action", "Due Date", "Date Due"
    the first due-date header is column 1 ("B"), but the scan ends with
    column 2 ("C"): the later header replaced the earlier one. With the
    single header "Action Due Date" the first due-date header is column 0,
    but it is taken as the action column and no due-date column is set. *)
Lemma C1_counterexample :
  first_due_header Host.Number_toString two_due_dates = Some 1%nat /\
  snd (host_findColumns two_due_dates) = Some "C" /\
  encode_col 1 = "B" /\
  first_due_header Host.Number_toString action_due_date = Some 0%nat /\
  host_findColumns action_due_date = (Some "A", None).
Proof. repeat split; vm_compute; reflexivity. Qed.

(** C1 at work: in [action_then_both] the second header is the only one
    considered, an earlier header having become the action column. *)
Lemma C1_due_date_column_witness :
  snd (host_findColumns action_then_both) = Some (encode_col 1).
Proof.
  apply (proj1 (C1_due_date_column Host.Number_toString action_then_both)).
  - split; [|split].
    + change (0 <= 1 <= 1)%nat. lia.
    + vm_compute. reflexivity.
    + intros _. exists 0%nat.
      split; [change (0 <= 0 < 1)%nat; lia|]. vm_compute. reflexivity.
  - intros col' (Hr & Hd & _).
    change (0 <= col' <= 1)%nat in Hr.
    destruct col' as [|[|col']]; [|reflexivity|lia].
    vm_compute in Hd. discriminate Hd.
Defined.

(** C2 on the sample host (UTC+05:30). *)
Lemma C2_scenario_A_witness :
  scenario_A_outcome (host_analyze new_year_2024 scenario_A) /\
  scenario_A_outcome (host_analyze new_year_2024 scenario_A_raw).
Proof.
  apply C2_scenario_A. unfold Host.LocalTZA, msPerDay. lia.
Defined.

(** C3 fails as stated: one data row that is not assigned gives
    [assigned_pct = 0] although [total_rows] is 1. *)
Lemma C3_counterexample :
  exists r, host_analyze new_year_2024 one_unassigned = inr r /\
            (assigned_pct r == 0)%Q /\ total_rows r = 1.
Proof. eexists. repeat split; vm_compute; reflexivity. Qed.

(** C3 at work on Scenario A. *)
Lemma C3_assigned_pct_witness :
  exists r, host_analyze new_year_2024 scenario_A = inr r /\
    (total_rows r = 0 -> (assigned_pct r == 0)%Q) /\
    (assigned_count r = 0 -> (assigned_pct r == 0)%Q) /\
    (0 < total_rows r -> total_rows r <= 1048576 ->
     exists k : Z,
       (assigned_pct r == inject_Z k / 10)%Q /\
       (10 * (100 * inject_Z (assigned_count r) / inject_Z (total_rows r))
        - 1 / 2 <= inject_Z k)%Q /\
       (inject_Z k
        <= 10 * (100 * inject_Z (assigned_count r) / inject_Z (total_rows r))
           + 1 / 2)%Q).
Proof.
  eexists. split; [vm_compute; reflexivity|].
  apply (C3_assigned_pct Host.Number_toString Host.Date_parse_impl
           Host.LocalTZA new_year_2024 scenario_A).
  vm_compute. reflexivity.
Defined.



(** C6 at work on Scenario A. *)
Lemma C6_counts_ordered_witness :
  exists r, host_analyze new_year_2024 scenario_A = inr r /\
    0 <= overdue_count r /\ overdue_count r <= assigned_count r /\
    assigned_count r <= total_rows r.
Proof.
  eexists. split; [vm_compute; reflexivity|].
  apply (C6_counts_ordered Host.Number_toString Host.Date_parse_impl
           Host.LocalTZA new_year_2024 scenario_A).
  vm_compute. reflexivity.
Defined.

(** C7 fails as stated: the message of the program is not, character for
    character, the one the specification quotes. *)
Lemma C7_counterexample :
  host_analyze new_year_2024 no_action = inl (Error msg_no_action) /\
  msg_no_action <> msg_no_action_spec.
Proof. split; [vm_compute; reflexivity | vm_compute; discriminate]. Qed.

(** C7 at work: neither header of [no_action] mentions an action. *)
Lemma C7_missing_action_column_witness :
  host_analyze new_year_2024 no_action = inl (Error msg_no_action) /\
  msg_no_action = requote msg_no_action_spec.
Proof.
  apply C7_missing_action_column. intros col Hr.
  change (0 <= col <= 1)%nat in Hr.
  destruct col as [|[|col]]; [vm_compute; reflexivity .. | lia].
Defined.

(** C8 at work on a sheet with an action column only. *)
Lemma C8_missing_due_date_column_witness :
  exists r, host_analyze new_year_2024 action_only = inr r /\
            overdue_count r = 0 /\
            notes r = [msg_no_due_date] /\
            due_date (columns_used r) = not_found.
Proof.
  apply (C8_missing_due_date_column Host.Number_toString Host.Date_parse_impl
           Host.LocalTZA new_year_2024 action_only 1704047400000 0%nat).
  - vm_compute. reflexivity.
  - change (0 <= 0 <= 0)%nat. lia.
  - vm_compute. reflexivity.
  - intros c Hr. change (0 <= c <= 0)%nat in Hr.
    destruct c as [|c]; [vm_compute; reflexivity | lia].
Defined.

(** C9 at work on Scenario D: the due date reads N/A. *)
Lemma C9_unparseable_never_overdue_witness :
  host_analyze_row scenario_D (ValidDate 1704047400000) "A" (Some "B")
                   (mkCounters 0 0 0) 1%nat
  = mkCounters (0 + 1) (0 + 1) 0.
Proof.
  apply (proj2 (proj2 (proj2 (C9_unparseable_never_overdue
           Host.Number_toString Host.Date_parse_impl Host.LocalTZA)))).
  - vm_compute. reflexivity.
  - right. exists "N/A". split; vm_compute; reflexivity.
Defined.

(** C10 at work: the formatted text of a date cell hides its serial. *)
Lemma C10_formatted_text_first_witness :
  w_or_v (Some (serial 45000 "2023-03")) = VString "2023-03".
Proof.
  apply (C10_formatted_text_first Host.Number_toString Host.Date_parse_impl
           Host.LocalTZA).
  - reflexivity.
  - discriminate.
Defined.

(** Scenario D of the specification: the row is assigned, not overdue. *)
Example scenario_D_counts :
  exists r, host_analyze new_year_2024 scenario_D = inr r /\
            total_rows r = 1 /\ assigned_count r = 1 /\ overdue_count r = 0.
Proof. eexists. repeat split; vm_compute; reflexivity. Qed.

(** ** The further properties on the sample host *)

Local Abbreviation host_read :=
  (fun file : string * worksheet => @inr thrown worksheet (snd file)).
Local Abbreviation host_resume :=
  (analyzeExcel_resume Host.Number_toString Host.Date_parse_impl
     Host.LocalTZA host_read "Invalid time value").
Local Abbreviation host_step :=
  (after_step Host.Number_toString Host.Date_parse_impl Host.LocalTZA
     host_read "Invalid time value").

(** X1 at work: of the two action-like headers the left one is taken. *)
Lemma X1_action_column_leftmost_witness :
  fst (host_findColumns two_actions) = Some (encode_col 1).
Proof.
  apply X1_action_column_leftmost.
  - change (0 <= 1 <= 2)%nat. lia.
  - vm_compute. reflexivity.
  - intros k Hk. change (0 <= k < 1)%nat in Hk.
    destruct k as [|k]; [vm_compute; reflexivity | lia].
Defined.

(** X2 at work: of the two due-date headers the right one is returned. *)
Lemma X2_due_date_column_rightmost_witness :
  snd (host_findColumns two_due_dates) = Some (encode_col 2).
Proof.
  apply X2_due_date_column_rightmost.
  - split; [|split].
    + change (0 <= 2 <= 2)%nat. lia.
    + vm_compute. reflexivity.
    + intros H. vm_compute in H. discriminate H.
  - intros col' (Hr & _). change (0 <= col' <= 2)%nat in Hr. lia.
Defined.

(** X3 at work on Scenario A. *)
Lemma X3_counts_are_row_counts_witness :
  exists r a d,
    host_analyze new_year_2024 scenario_A = inr r /\
    host_findColumns scenario_A = (Some a, d) /\
    total_rows r
    = count_rows (row_counted scenario_A a d) (data_rows scenario_A) /\
    assigned_count r
    = count_rows (row_assigned Host.Number_toString scenario_A a)
        (data_rows scenario_A) /\
    overdue_count r
    = count_rows
        (row_overdue Host.Number_toString Host.Date_parse_impl Host.LocalTZA
           scenario_A (getTodayInKolkata Host.LocalTZA new_year_2024) a d)
        (data_rows scenario_A).
Proof.
  eexists.
  destruct (X3_counts_are_row_counts Host.Number_toString Host.Date_parse_impl
              Host.LocalTZA new_year_2024 scenario_A _ eq_refl)
    as (a & d & H).
  exists a, d. split; [vm_compute; reflexivity | exact H].
Defined.

(** X4 at work: the blank row is counted, a due-date column being there. *)
Lemma X4_total_rows_witness :
  exists r, host_analyze new_year_2024 with_blank_row = inr r /\
            total_rows r = 3.
Proof.
  eexists. split; [vm_compute; reflexivity|].
  apply (proj1 (X4_total_rows Host.Number_toString Host.Date_parse_impl
                  Host.LocalTZA new_year_2024 with_blank_row _ eq_refl)).
  vm_compute. discriminate.
Defined.

(** X5 at work: Scenario A analysed on 2019-01-01 and on 2024-01-01. *)
Lemma X5_overdue_monotone_witness :
  exists r1 r2,
    host_analyze new_year_2019 scenario_A = inr r1 /\
    host_analyze new_year_2024 scenario_A = inr r2 /\
    total_rows r1 = total_rows r2 /\
    assigned_count r1 = assigned_count r2 /\
    assigned_pct r1 = assigned_pct r2 /\
    columns_used r1 = columns_used r2 /\
    notes r1 = notes r2 /\
    overdue_count r1 <= overdue_count r2.
Proof.
  do 2 eexists. split; [vm_compute; reflexivity|].
  split; [vm_compute; reflexivity|].
  apply (X5_overdue_monotone Host.Number_toString Host.Date_parse_impl
           Host.LocalTZA new_year_2019 new_year_2024 scenario_A _ _
           1546281000000 1704047400000);
    [vm_compute; reflexivity | vm_compute; reflexivity | lia
    | vm_compute; reflexivity | vm_compute; reflexivity].
Defined.

(** X6 at work on Scenario A. *)
Lemma X6_percentages_in_range_witness :
  exists r, host_analyze new_year_2024 scenario_A = inr r /\
    (0 <= assigned_pct r <= 100)%Q /\
    (0 <= overdue_pct_of_assigned r <= 100)%Q.
Proof.
  eexists. split; [vm_compute; reflexivity|].
  apply (X6_percentages_in_range Host.Number_toString Host.Date_parse_impl
           Host.LocalTZA new_year_2024 scenario_A).
  vm_compute. reflexivity.
Defined.

(** X7 at work on Scenario A analysed on 2019-01-01: nothing is overdue. *)
Lemma X7_overdue_pct_witness :
  exists r, host_analyze new_year_2019 scenario_A = inr r /\
            (overdue_pct_of_assigned r == 0)%Q.
Proof.
  eexists. split; [vm_compute; reflexivity|].
  apply (X7_overdue_pct Host.Number_toString Host.Date_parse_impl
           Host.LocalTZA new_year_2019 scenario_A _ eq_refl).
  vm_compute. reflexivity.
Defined.

(** X8 at work on a sheet with an action column only. *)
Lemma X8_notes_and_sentinel_witness :
  exists r, host_analyze new_year_2024 action_only = inr r /\
            notes r = [msg_no_due_date] /\
            due_date (columns_used r) = not_found.
Proof.
  eexists. split; [vm_compute; reflexivity|].
  apply (X8_notes_and_sentinel Host.Number_toString Host.Date_parse_impl
           Host.LocalTZA new_year_2024 action_only _ eq_refl).
  vm_compute. reflexivity.
Defined.

(** X9 at work: on the sample host the report of 2024-01-01 is dated the
    day before. *)
Lemma X9_today_iso_witness :
  exists r, host_analyze new_year_2024 scenario_A = inr r /\
            today_iso r = "2023-12-31".
Proof.
  eexists. split; [vm_compute; reflexivity|].
  etransitivity.
  - apply (proj1 (X9_today_iso Host.Number_toString Host.Date_parse_impl
                    Host.LocalTZA new_year_2024 scenario_A _ eq_refl)).
    unfold Host.LocalTZA, msPerDay. lia.
  - vm_compute. reflexivity.
Defined.

(** X11 at work: on the sample host, ahead of UTC, a row due on the day
    of the analysis is not overdue. *)
Lemma X11_due_today_witness :
  row_overdue Host.Number_toString Host.Date_parse_impl Host.LocalTZA
    scenario_A (getTodayInKolkata Host.LocalTZA new_year_2020)
    "A" (Some "B") 1%nat
  = false.
Proof.
  etransitivity.
  - apply (X11_due_today Host.Number_toString Host.Date_parse_impl
             Host.LocalTZA new_year_2020 scenario_A "A" "B" 1%nat
             "2020-01-01" 1577817000000).
    + vm_compute. reflexivity.
    + vm_compute. discriminate.
    + vm_compute. reflexivity.
    + discriminate.
    + vm_compute. reflexivity.
    + discriminate.
    + vm_compute. reflexivity.
  - vm_compute. reflexivity.
Defined.

(** X12 at work on a sheet that has a header row only. *)
Lemma X12_no_data_rows_witness :
  exists r, host_analyze new_year_2024 header_only = inr r /\
    total_rows r = 0 /\ assigned_count r = 0 /\ overdue_count r = 0 /\
    (assigned_pct r == 0)%Q /\ (overdue_pct_of_assigned r == 0)%Q /\
    summary r = "Total: 0 | Assigned: 0 (0%) | Overdue: 0 (0%)".
Proof.
  eexists. split; [vm_compute; reflexivity|].
  apply (X12_no_data_rows Host.Number_toString Host.Date_parse_impl
           Host.LocalTZA new_year_2024 header_only);
    vm_compute; reflexivity.
Defined.

(** X14 at work: what the Owner column holds changes nothing. *)
Lemma X14_reads_located_columns_only_witness :
  host_analyze new_year_2024 scenario_A_with_owner
  = host_analyze new_year_2024 scenario_A_other_owner.
Proof.
  apply X14_reads_located_columns_only.
  - reflexivity.
  - intros col Hr. change (0 <= col <= 2)%nat in Hr.
    destruct col as [|[|[|col]]]; [vm_compute; reflexivity .. | lia].
  - intros a row Ha Hrow. vm_compute in Ha. injection Ha as <-.
    change (row ∈ [1; 2; 3]%nat) in Hrow.
    repeat (apply elem_of_cons in Hrow as [->|Hrow];
            [vm_compute; reflexivity|]).
    by apply not_elem_of_nil in Hrow.
  - intros d row Hd Hrow. vm_compute in Hd. injection Hd as <-.
    change (row ∈ [1; 2; 3]%nat) in Hrow.
    repeat (apply elem_of_cons in Hrow as [->|Hrow];
            [vm_compute; reflexivity|]).
    by apply not_elem_of_nil in Hrow.
Defined.

(** X16 at work: two runs begin, the one on a good file ends, then the
    one on a file without an action header: result and error are both
    set. *)
Lemma X16_runs_interleaved_witness :
  exists r,
    host_analyze new_year_2024 action_only = inr r /\
    let st' :=
      fold_left host_step
        ([Begin] ++ Begin ::
           [Resume new_year_2024 ("good.xlsx", action_only);
            Resume new_year_2024 ("bad.xlsx", no_action)])
        (mkComponent false false None None) in
    result st' = Some r /\ error st' = Some msg_no_action /\
    isAnalyzing st' = false.
Proof.
  eexists. split; [vm_compute; reflexivity|]. cbn zeta.
  destruct (X16_runs_interleaved Host.Number_toString Host.Date_parse_impl
              Host.LocalTZA host_read "Invalid time value" [Begin]
              [Resume new_year_2024 ("good.xlsx", action_only);
               Resume new_year_2024 ("bad.xlsx", no_action)]
              (mkComponent false false None None))
    as (_ & H2 & H3 & H4).
  - repeat constructor; discriminate.
  - rewrite H2, H3, H4. repeat split; vm_compute; reflexivity.
Defined.

(** X17 at work: a file whose sheet has no action header, resumed on a
    state in which a run has begun. *)
Lemma X17_missing_action_shown_witness :
  host_resume new_year_2024 ("tasks.xlsx", no_action)
    (mkComponent true true None None)
  = (mkComponent true false None (Some msg_no_action),
     [mkToast "Analysis Failed" msg_no_action true]).
Proof.
  apply (X17_missing_action_shown Host.Number_toString Host.Date_parse_impl
           Host.LocalTZA host_read
           "Invalid time value" new_year_2024 ("tasks.xlsx", no_action)
           (mkComponent true true None None) no_action).
  - reflexivity.
  - intros col Hr. change (0 <= col <= 1)%nat in Hr.
    destruct col as [|[|col]]; [vm_compute; reflexivity .. | lia].
Defined.

(** X18 at work on Scenario A. *)
Lemma X18_total_rows_bound_witness :
  exists r, host_analyze new_year_2024 scenario_A = inr r /\
            0 <= total_rows r <= Z.of_nat (e_r (decode_ref scenario_A)).
Proof.
  eexists. split; [vm_compute; reflexivity|].
  apply (X18_total_rows_bound Host.Number_toString Host.Date_parse_impl
           Host.LocalTZA new_year_2024 scenario_A).
  vm_compute. reflexivity.
Defined.

(** X19 at work on Scenario A. *)
Lemma X19_distinct_columns_witness :
  exists r, host_analyze new_year_2024 scenario_A = inr r /\
            action (columns_used r) <> due_date (columns_used r).
Proof.
  eexists. split; [vm_compute; reflexivity|].
  apply (X19_distinct_columns Host.Number_toString Host.Date_parse_impl
           Host.LocalTZA new_year_2024 scenario_A _ eq_refl).
Defined.

(** The drop test on names: lower-case endings only. *)
Example excel_names :
  is_excel_name "tasks.xlsx" = true /\ is_excel_name "tasks.xls" = true /\
  is_excel_name ".xls" = true /\ is_excel_name "TASKS.XLSX" = false /\
  is_excel_name "tasks.xlsx.bak" = false /\ is_excel_name "xls" = false.
Proof. repeat split; reflexivity. Qed.
